(** * sinope_triggers: thermostat monitor, trigger manager and action executor

    A shallow embedding of the four Python modules
    [neviweb_client.py], [action_executor.py], [trigger_manager.py] and
    [monitor.py], followed by the properties of the monitoring loop, the
    reconnect policy, the condition checker and the action executor. *)

From Stdlib Require Import ZArith QArith Qround String List Bool Lia DecimalString.
Import ListNotations.
Open Scope string_scope.
Open Scope Z_scope.
Open Scope list_scope.
#[local] Set Warnings "-register-all".

(** ** Python values

    Everything the program handles comes out of [json.load] or
    [resp.json()]: the configuration, the triggers, the API replies.
    A dict is the list of its items in insertion order (keys distinct),
    and a float is carried by the rational it denotes. [JNull] is
    Python's [None]. *)

Inductive json : Type :=
| JNull
| JBool (b : bool)
| JInt (z : Z)
| JFloat (q : Q)
| JStr (s : string)
| JArr (l : list json)
| JObj (kvs : list (string * json)).

(** The exception classes the code can meet. No handler of the program
    looks at the class: all of them are [except Exception]. *)
Inductive exn : Type :=
| AttributeError
| TypeError
| ValueError
| OverflowError
| KeyError
| RuntimeError
| CollaboratorError.

Inductive res (A : Type) : Type :=
| Ret (a : A)
| Raise (e : exn).
Arguments Ret {A} a.
Arguments Raise {A} e.

(** [bool(v)] *)
Definition truthy (v : json) : bool :=
  match v with
  | JNull => false
  | JBool b => b
  | JInt z => negb (z =? 0)
  | JFloat q => negb (Qeq_bool q 0)
  | JStr s => negb (String.eqb s "")
  | JArr l => match l with [] => false | _ => true end
  | JObj kvs => match kvs with [] => false | _ => true end
  end.

Fixpoint dict_get (kvs : list (string * json)) (k : string) : option json :=
  match kvs with
  | [] => None
  | (k', v) :: rest => if String.eqb k' k then Some v else dict_get rest k
  end.

Definition dict_get_or (kvs : list (string * json)) (k : string) (default : json) : json :=
  match dict_get kvs k with
  | Some v => v
  | None => default
  end.

(** [v.get(k, default)]: only a dict has the method. *)
Definition py_get (v : json) (k : string) (default : json) : res json :=
  match v with
  | JObj kvs => Ret (dict_get_or kvs k default)
  | _ => Raise AttributeError
  end.

(** [isinstance(v, dict)] *)
Definition is_dict (v : json) : bool :=
  match v with
  | JObj _ => true
  | _ => false
  end.

(** [isinstance(v, dict) and k in v] *)
Definition has_key (v : json) (k : string) : bool :=
  match v with
  | JObj kvs => match dict_get kvs k with Some _ => true | None => false end
  | _ => false
  end.

(** [v == s] for a string literal [s] *)
Definition py_eq_str (v : json) (s : string) : bool :=
  match v with
  | JStr t => String.eqb t s
  | _ => false
  end.

(** [v == 0]: never raises; [False == 0] holds in Python. *)
Definition py_eq0 (v : json) : bool :=
  match v with
  | JInt z => z =? 0
  | JFloat q => Qeq_bool q 0
  | JBool b => negb b
  | _ => false
  end.

(** [v > 0]: a [TypeError] on anything that is not a number. *)
Definition py_gt0 (v : json) : res bool :=
  match v with
  | JInt z => Ret (0 <? z)
  | JFloat q => Ret (negb (Qle_bool q 0))
  | JBool b => Ret b
  | _ => Raise TypeError
  end.

(** [s in v] for a string [s]: key of a dict, element of a list,
    substring of a string; other values are not containers. *)
Definition py_contains (v : json) (s : string) : res bool :=
  match v with
  | JObj kvs => Ret (match dict_get kvs s with Some _ => true | None => false end)
  | JArr l => Ret (existsb (fun x => py_eq_str x s) l)
  | JStr t => Ret (match String.index 0 s t with Some _ => true | None => false end)
  | _ => Raise TypeError
  end.

(** [v[s]] for a string [s] *)
Definition py_getitem (v : json) (s : string) : res json :=
  match v with
  | JObj kvs => match dict_get kvs s with Some x => Ret x | None => Raise KeyError end
  | _ => Raise TypeError
  end.

Fixpoint chars (s : string) : list json :=
  match s with
  | EmptyString => []
  | String c rest => JStr (String c EmptyString) :: chars rest
  end.

(** [for x in v]: the elements of a list, the keys of a dict, the
    characters of a string. *)
Definition py_iter (v : json) : res (list json) :=
  match v with
  | JArr l => Ret l
  | JObj kvs => Ret (map (fun kv => JStr (fst kv)) kvs)
  | JStr s => Ret (chars s)
  | _ => Raise TypeError
  end.

(** [len(v)] *)
Definition py_len (v : json) : res nat :=
  match v with
  | JArr l => Ret (length l)
  | JObj kvs => Ret (length kvs)
  | JStr s => Ret (String.length s)
  | _ => Raise TypeError
  end.

(** [range(v)]: the number of iterations. *)
Definition py_range (v : json) : res nat :=
  match v with
  | JInt z => Ret (Z.to_nat z)
  | JBool b => Ret (if b then 1%nat else 0%nat)
  | _ => Raise TypeError
  end.

(** [float(z)] overflows: the conversion rounds to the nearest float,
    ties to even, so it fails from [2^1024 - 2^970] on (the middle of
    the largest float and [2^1024]), on both sides of zero. *)
Definition float_overflows (z : Z) : bool := 2 ^ 1024 - 2 ^ 970 <=? Z.abs z.

(** [v / 1000.0]: an integer is converted to a float first, which is
    an [OverflowError] when it is too large. *)
Definition py_div_1000 (v : json) : res json :=
  match v with
  | JInt z =>
      if float_overflows z then Raise OverflowError
      else Ret (JFloat (inject_Z z / 1000)%Q)
  | JFloat q => Ret (JFloat (q / 1000)%Q)
  | JBool b => Ret (JFloat ((if b then 1 else 0) / 1000)%Q)
  | _ => Raise TypeError
  end.

(** [v[:20]]: strings and lists can be sliced; a dict refuses the
    slice as a key ([TypeError], [KeyError] from Python 3.12 on), the
    other values have no subscript. *)
Definition py_slice20 (v : json) : res unit :=
  match v with
  | JStr _ | JArr _ => Ret tt
  | _ => Raise TypeError
  end.

(** ** The world, the events and the monad of the program *)

Inductive endpoint : Type :=
| LOGIN_URL
| LOGOUT_URL
| DEVICE_LIST_URL
| DEVICE_DATA_URL (device_id : json).

(** The command lines given to [subprocess.run], by what they are built from. *)
Inductive command : Type :=
| Ping_nt (count timeout_ms host : json)
| Ping_posix (count timeout_sec host : json)
| Shell (command : json).

Inductive callee : Type :=
| Clogin
| Cget_devices
| Cdisconnect
| Cget_all_info
| Creconnect
| Cexecute_trigger (trigger_name : string)
| Cthread.

(** The levels of the records given to the logger ([logger.exception]
    logs at the level of an error). *)
Inductive level : Type :=
| INFO
| WARNING
| ERROR.

(** What a run does, in order. A call that the properties below speak
    about is one node holding the events of its body, so that the
    events of a function are told apart from those of its callees.
    The records of the logger are carried for the condition checker
    only ([check_logged] below): a record holds its level, the text of
    the f-string and the values of the JSON expressions between its
    braces (the text of an exception is not carried). *)
Inductive event : Type :=
| ERequest (url : endpoint)
| ESleep (seconds : json)
| EKey (key : json)
| ERun (cmd : command)
| ECall (f : callee) (body : list event)
| ELog (lvl : level) (template : string) (values : list json).

(** [NeviwebClient]: the fields that the code reads back. *)
Record NeviwebClient : Type := mkClient {
  session_id : json;
  devices : list json
}.

(** The collaborators answer by the instant of the call: [http n] is the
    parsed body of the exchange made at instant [n] ([None] when
    [session.post], [raise_for_status] or [resp.json] raises),
    [subprocess n] the return code of the process run at instant [n]
    ([None] when [subprocess.run] raises) and [keyboard n] tells whether
    the key press made at instant [n] goes through. *)
Record world : Type := mkWorld {
  clock : nat;
  http : nat -> option json;
  subprocess : nat -> option Z;
  keyboard : nat -> bool;
  os_nt : bool;
  client : NeviwebClient
}.

Definition M (A : Type) : Type := world -> res A * world * list event.

Definition ret {A} (a : A) : M A := fun w => (Ret a, w, []).

Definition raise {A} (e : exn) : M A := fun w => (Raise e, w, []).

Definition bind {A B} (m : M A) (k : A -> M B) : M B :=
  fun w =>
    match m w with
    | (Ret a, w1, t1) =>
        match k a w1 with
        | (r, w2, t2) => (r, w2, t1 ++ t2)
        end
    | (Raise e, w1, t1) => (Raise e, w1, t1)
    end.

(** [try: m  except Exception as e: h e] *)
Definition try_catch {A} (m : M A) (h : exn -> M A) : M A :=
  fun w =>
    match m w with
    | (Ret a, w1, t1) => (Ret a, w1, t1)
    | (Raise e, w1, t1) =>
        match h e w1 with
        | (r, w2, t2) => (r, w2, t1 ++ t2)
        end
    end.

Definition lift {A} (r : res A) : M A := fun w => (r, w, []).

Definition emit (e : event) : M unit := fun w => (Ret tt, w, [e]).

Definition call {A} (f : callee) (m : M A) : M A :=
  fun w =>
    match m w with
    | (r, w1, t) => (r, w1, [ECall f t])
    end.

Declare Scope monad_scope.
Delimit Scope monad_scope with monad.
Notation "x <- m ;; k" := (bind m (fun x => k))
  (at level 61, m at next level, right associativity) : monad_scope.
Notation "m ;; k" := (bind m (fun _ => k))
  (at level 61, right associativity) : monad_scope.
Open Scope monad_scope.

Definition tick (w : world) : world :=
  mkWorld (S (clock w)) (http w) (subprocess w) (keyboard w) (os_nt w) (client w).

Definition set_client (c : NeviwebClient) (w : world) : world :=
  mkWorld (clock w) (http w) (subprocess w) (keyboard w) (os_nt w) c.

Definition get_client : M NeviwebClient := fun w => (Ret (client w), w, []).

Definition put_client (c : NeviwebClient) : M unit := fun w => (Ret tt, set_client c w, []).

(** [os.name == 'nt'] *)
Definition get_os_nt : M bool := fun w => (Ret (os_nt w), w, []).

(** [session.post] / [session.get] with [raise_for_status] and
    [resp.json()]; where the code only posts, the body is not looked at. *)
Definition request (url : endpoint) : M json :=
  fun w =>
    match http w (clock w) with
    | Some body => (Ret body, tick w, [ERequest url])
    | None => (Raise CollaboratorError, tick w, [ERequest url])
    end.

(** [subprocess.run(cmd, shell=True, capture_output=True, text=True).returncode] *)
Definition subprocess_run (cmd : command) : M Z :=
  fun w =>
    match subprocess w (clock w) with
    | Some returncode => (Ret returncode, tick w, [ERun cmd])
    | None => (Raise CollaboratorError, tick w, [ERun cmd])
    end.

(** [keyboard.press_and_release(key)] *)
Definition press_and_release (key : json) : M unit :=
  fun w =>
    if keyboard w (clock w) then (Ret tt, tick w, [EKey key])
    else (Raise CollaboratorError, tick w, [EKey key]).

(** The clock of [time.sleep] counts nanoseconds on 64 signed bits. *)
Definition PyTime_MIN : Z := -9223372036854775808.
Definition PyTime_MAX : Z := 9223372036854775807.
Definition SEC_TO_NS : Z := 1000000000.

(** A float length is rounded away from zero to a whole number of
    nanoseconds. *)
Definition round_away (q : Q) : Z := if Qle_bool 0 q then Qceiling q else Qfloor q.

(** The length of a pause in nanoseconds, as [time.sleep] converts its
    argument: an [OverflowError] when the count does not fit the clock,
    a [TypeError] when the argument is not a number. An integer is
    accepted from -9223372036 to 9223372036 seconds; the product of a
    float is taken on the rational that carries it. *)
Definition sleep_ns (seconds : json) : res Z :=
  let in_range ns :=
    if (PyTime_MIN <=? ns) && (ns <=? PyTime_MAX) then Ret ns else Raise OverflowError in
  match seconds with
  | JInt z => in_range (z * SEC_TO_NS)
  | JFloat q => in_range (round_away (q * inject_Z SEC_TO_NS))
  | JBool b => Ret (if b then SEC_TO_NS else 0)
  | _ => Raise TypeError
  end.

(** [time.sleep(seconds)]: the argument is converted first; a negative
    length is then a [ValueError]. *)
Definition time_sleep (seconds : json) : M unit :=
  match sleep_ns seconds with
  | Ret ns => if ns <? 0 then raise ValueError else emit (ESleep seconds)
  | Raise e => raise e
  end.

(** [logger.info], [logger.warning], [logger.exception] *)
Definition logger (lvl : level) (template : string) (values : list json) : M unit :=
  emit (ELog lvl template values).

Fixpoint for_each {A} (l : list A) (body : A -> M unit) : M unit :=
  match l with
  | [] => ret tt
  | x :: rest => body x ;; for_each rest body
  end.

(** ** action_executor.py *)

Definition REPEAT_DELAY_IN_SECONDS : json := JFloat (35 # 100).

(** [ConditionChecker._check_ping] *)
Definition _check_ping (condition : json) : M bool :=
  host <- lift (py_get condition "host" JNull) ;;
  count <- lift (py_get condition "count" (JInt 1)) ;;
  timeout_ms <- lift (py_get condition "timeout" (JInt 100)) ;;
  nt <- get_os_nt ;;
  ping_cmd <- (if nt then ret (Ping_nt count timeout_ms host)
               else timeout_sec <- lift (py_div_1000 timeout_ms) ;;
                    ret (Ping_posix count timeout_sec host)) ;;
  returncode <- subprocess_run ping_cmd ;;
  if returncode =? 0 then ret true else ret false.

(** [ConditionChecker.check] *)
Definition check (condition : json) : M bool :=
  if negb (truthy condition) then ret true
  else
    condition_type <- lift (py_get condition "type" JNull) ;;
    try_catch
      (if py_eq_str condition_type "ping" then _check_ping condition
       else ret true)
      (fun _ => ret false).

(** [ConditionChecker._check_ping] with the records it gives to the
    logger (the mark that opens the text of the last two is left out). *)
Definition _check_ping_logged (condition : json) : M bool :=
  host <- lift (py_get condition "host" JNull) ;;
  count <- lift (py_get condition "count" (JInt 1)) ;;
  timeout_ms <- lift (py_get condition "timeout" (JInt 100)) ;;
  logger INFO "Checking ping condition: {host} (count={count}, timeout={timeout_ms}ms)"
         [host; count; timeout_ms] ;;
  nt <- get_os_nt ;;
  ping_cmd <- (if nt then ret (Ping_nt count timeout_ms host)
               else timeout_sec <- lift (py_div_1000 timeout_ms) ;;
                    ret (Ping_posix count timeout_sec host)) ;;
  returncode <- subprocess_run ping_cmd ;;
  if returncode =? 0 then
    logger INFO "Ping condition met: {host} is reachable" [host] ;;
    ret true
  else
    logger INFO "Ping condition not met: {host} is not reachable" [host] ;;
    ret false.

(** [ConditionChecker.check] with the records it gives to the logger;
    [check] above is this function with the records left out. *)
Definition check_logged (condition : json) : M bool :=
  if negb (truthy condition) then ret true
  else
    condition_type <- lift (py_get condition "type" JNull) ;;
    try_catch
      (if py_eq_str condition_type "ping" then _check_ping_logged condition
       else
         logger WARNING "Unknown condition type: {condition_type}" [condition_type] ;;
         ret true)
      (fun _ =>
         logger ERROR "Error checking condition {condition}: {e}" [condition] ;;
         ret false).

(** [for i in range(n): body; if i < n - 1: time.sleep(REPEAT_DELAY_IN_SECONDS)],
    by the number of iterations still to run. *)
Fixpoint repeat_with_delay (remaining : nat) (body : M unit) : M unit :=
  match remaining with
  | O => ret tt
  | S r =>
      body ;;
      (match r with
       | O => ret tt
       | S _ => time_sleep REPEAT_DELAY_IN_SECONDS
       end) ;;
      repeat_with_delay r body
  end.

(** [ActionExecutor._execute_keyboard] *)
Definition _execute_keyboard (action : json) : M unit :=
  key <- lift (py_get action "key" JNull) ;;
  repeat <- lift (py_get action "repeat" (JInt 1)) ;;
  n <- lift (py_range repeat) ;;
  repeat_with_delay n (press_and_release key).

(** [ActionExecutor._execute_command] *)
Definition _execute_command (action : json) : M unit :=
  command <- lift (py_get action "command" JNull) ;;
  repeat <- lift (py_get action "repeat" (JInt 1)) ;;
  n <- lift (py_range repeat) ;;
  repeat_with_delay n (subprocess_run (Shell command) ;; ret tt).

(** [ActionExecutor._execute_sleep] *)
Definition _execute_sleep (action : json) : M unit :=
  seconds <- lift (py_get action "seconds" (JInt 0)) ;;
  time_sleep seconds.

(** [ActionExecutor.execute] *)
Definition execute (action : json) : M unit :=
  enabled <- lift (py_get action "enabled" (JBool true)) ;;
  if negb (truthy enabled) then ret tt
  else
    condition <- lift (py_get action "condition" JNull) ;;
    skip <- (if truthy condition
             then passed <- check condition ;; ret (negb passed)
             else ret false) ;;
    if skip then ret tt
    else
      action_type <- lift (py_get action "action_type" JNull) ;;
      try_catch
        (if py_eq_str action_type "keyboard" then _execute_keyboard action
         else if py_eq_str action_type "command" then _execute_command action
         else if py_eq_str action_type "sleep" then _execute_sleep action
         else ret tt)
        (fun _ => ret tt).

(** ** trigger_manager.py *)

(** [threading.Thread(target=m).start()] followed later by [join()]: the
    thread runs [m] to its end; an exception that ends a thread is
    reported by the threading hook and never reaches the parent. The
    threads of one block appear in the order they were started. *)
Definition thread (m : M unit) : M unit :=
  fun w =>
    match m w with
    | (_, w1, t) => (Ret tt, w1, [ECall Cthread t])
    end.

(** [TriggerManager._execute_parallel_block] *)
Definition _execute_parallel_block (parallel_block : json) : M unit :=
  parallel_actions <- lift (py_get parallel_block "actions" (JArr [])) ;;
  _ <- lift (py_len parallel_actions) ;;
  actions <- lift (py_iter parallel_actions) ;;
  for_each actions (fun action => thread (execute action)).

(** [TriggerManager._execute_action_list] *)
Definition _execute_action_list (actions : json) : M unit :=
  if negb (truthy actions) then ret tt
  else
    items <- lift (py_iter actions) ;;
    for_each items
      (fun item =>
         if is_dict item && py_eq_str (match item with
                                       | JObj kvs => dict_get_or kvs "action_type" JNull
                                       | _ => JNull
                                       end) "parallel"
         then _execute_parallel_block item
         else execute item).

(** [TriggerManager.execute_trigger], on the [triggers] of the manager. *)
Definition execute_trigger (triggers : json) (trigger_name : string) : M unit :=
  present <- lift (py_contains triggers trigger_name) ;;
  if negb present then ret tt
  else
    actions <- lift (py_getitem triggers trigger_name) ;;
    _execute_action_list actions.

(** ** neviweb_client.py *)

Definition set_session_id (v : json) : M unit :=
  fun w => (Ret tt, set_client (mkClient v (devices (client w))) w, []).

Definition set_devices (l : list json) : M unit :=
  fun w => (Ret tt, set_client (mkClient (session_id (client w)) l) w, []).

(** [try: resp = session.post/get(url); resp.raise_for_status(); x = resp.json()
     except Exception: ...]: [None] when the handler was taken. *)
Definition request_or_none (url : endpoint) : M (option json) :=
  try_catch (x <- request url ;; ret (Some x)) (fun _ => ret None).

(** [NeviwebClient.login] *)
Definition login : M bool :=
  r <- request_or_none LOGIN_URL ;;
  match r with
  | None => ret false
  | Some result =>
      if has_key result "session" then
        session <- lift (py_getitem result "session") ;;
        set_session_id session ;;
        (* the log line shows [self.session_id[:20]] *)
        _ <- lift (py_slice20 session) ;;
        ret true
      else
        too_many <- match result with
                    | JObj kvs =>
                        code <- lift (py_get (dict_get_or kvs "error" (JObj [])) "code" JNull) ;;
                        ret (py_eq_str code "ACCSESSEXC")
                    | _ => ret false
                    end ;;
        if too_many then
          try_catch (_ <- request LOGOUT_URL ;; time_sleep (JInt 2)) (fun _ => ret tt) ;;
          r2 <- request_or_none LOGIN_URL ;;
          match r2 with
          | None => ret false
          | Some result2 =>
              if has_key result2 "session" then
                session <- lift (py_getitem result2 "session") ;;
                set_session_id session ;;
                ret true
              else ret false
          end
        else ret false
  end.

(** [NeviwebClient.get_devices] *)
Definition get_devices : M bool :=
  r <- request_or_none DEVICE_LIST_URL ;;
  match r with
  | None => ret false
  | Some data =>
      if has_key data "error" then ret false
      else
        set_devices (match data with JArr l => l | _ => [] end) ;;
        c <- get_client ;;
        match devices c with
        | [] => ret false
        | devs =>
            (* the log line of each device shows [dev.get('name')], ... *)
            for_each devs (fun dev => _ <- lift (py_get dev "name" JNull) ;; ret tt) ;;
            ret true
        end
  end.

(** [NeviwebClient.get_device_attributes] *)
Definition get_device_attributes (device_id : json) : M json :=
  try_catch (request (DEVICE_DATA_URL device_id)) (fun _ => ret JNull).

(** [NeviwebClient.disconnect] *)
Definition disconnect : M unit :=
  c <- get_client ;;
  if negb (truthy (session_id c)) then ret tt
  else
    try_catch (_ <- request LOGOUT_URL ;; ret tt) (fun _ => ret tt) ;;
    set_session_id JNull.

(** [NeviwebClient.safe_cleanup], which the client registers with
    [atexit] when it is created. *)
Definition safe_cleanup : M unit :=
  try_catch disconnect (fun _ => ret tt).

(** [Thermostat]; its [client] is the one client of the world. *)
Record Thermostat : Type := mkThermostat {
  device_id : json;
  name : json;
  device_info : json
}.

(** [Thermostat.__init__] *)
Definition Thermostat_init (device : json) : res Thermostat :=
  match py_get device "id" JNull with
  | Raise e => Raise e
  | Ret i =>
      match py_get device "name" JNull with
      | Raise e => Raise e
      | Ret n => Ret (mkThermostat i n device)
      end
  end.

(** [Thermostat.get_all_info] *)
Definition get_all_info (t : Thermostat) : M json :=
  get_device_attributes (device_id t).

(** [info.get("outputPercentDisplay", {}).get("percent", 0)] *)
Definition percent_field (info : json) : res json :=
  match py_get info "outputPercentDisplay" (JObj []) with
  | Raise e => Raise e
  | Ret display => py_get display "percent" (JInt 0)
  end.

(** [try: percent = ...  except Exception: percent = 0] (monitor.py, and
    the last lines of [Thermostat.get_output_percent]) *)
Definition extract_percent (info : json) : json :=
  match percent_field info with
  | Ret percent => percent
  | Raise _ => JInt 0
  end.

(** [Thermostat.get_output_percent] *)
Definition get_output_percent (t : Thermostat) (info : json) : M json :=
  info <- (match info with
           | JNull => get_all_info t
           | _ => ret info
           end) ;;
  if negb (truthy info) || negb (is_dict info) then ret (JInt 0)
  else ret (extract_percent info).

(** ** monitor.py *)

Inductive mode : Type := once | monitor | trigger.

(** What [main] reads from the configuration file and the command line:
    [auth.get("deviceId")], the poll interval and [config.get("triggers", {})]. *)
Record config : Type := mkConfig {
  deviceId : json;
  interval : Z;
  triggers_config : json
}.

(** The variables of [main] that change from one poll to the next. *)
Record locals : Type := mkLocals {
  thermostat : Thermostat;
  last_percent : json
}.

Inductive status : Type :=
| StartupError (message : string)
| Finished
| Polling (st : locals).

(** One turn of the loop of [reconnect], for the value of [attempt]
    after its increment:
    [try: ... return True  except Exception: time.sleep(base_delay * 2 ** (attempt - 1))];
    true when the turn returned [True]. *)
Definition reconnect_attempt (attempt base_delay : Z) : M bool :=
  try_catch
    (logged_in <- call Clogin login ;;
     if negb logged_in then raise RuntimeError
     else
       listed <- call Cget_devices get_devices ;;
       if negb listed then raise RuntimeError
       else ret true)
    (fun _ =>
       let delay := base_delay * 2 ^ (attempt - 1) in
       time_sleep (JInt delay) ;;
       ret false).

(** [while attempt < max_attempts: attempt += 1; ...], by the number of
    turns still allowed; [attempt] is the value before the increment. *)
Fixpoint reconnect_loop (remaining : nat) (attempt base_delay : Z) : M bool :=
  match remaining with
  | O => ret false
  | S r =>
      let attempt := attempt + 1 in
      connected <- reconnect_attempt attempt base_delay ;;
      if connected then ret true
      else reconnect_loop r attempt base_delay
  end.

(** [reconnect] *)
Definition reconnect (max_attempts base_delay : Z) : M bool :=
  call Cdisconnect disconnect ;;
  reconnect_loop (Z.to_nat max_attempts) 0 base_delay.

Section Monitor.

(** Python's [str()], which the device lookup applies to both ids. *)
Variable py_str : json -> string.

(** [next((d for d in devices if str(d.get("id")) == str(auth.get("deviceId"))), None)] *)
Fixpoint find_device (devs : list json) (wanted : json) : res (option json) :=
  match devs with
  | [] => Ret None
  | d :: rest =>
      match py_get d "id" JNull with
      | Raise e => Raise e
      | Ret i =>
          if String.eqb (py_str i) (py_str wanted) then Ret (Some d)
          else find_device rest wanted
      end
  end.

Variable args_mode : mode.
Variable cfg : config.

(** After a reconnect: select the device again, rebuild the thermostat,
    sleep (lines 137-144 and 158-165 of monitor.py). *)
Definition reselect_device (st : locals) : M locals :=
  c <- get_client ;;
  device <- lift (find_device (devices c) (deviceId cfg)) ;;
  match device with
  | Some d =>
      if negb (truthy d) then
        time_sleep (JInt (interval cfg)) ;; ret st
      else
        t <- lift (Thermostat_init d) ;;
        time_sleep (JInt (interval cfg)) ;;
        ret (mkLocals t (last_percent st))
  | None =>
      time_sleep (JInt (interval cfg)) ;; ret st
  end.

(** The two tests on [last_percent] and [percent], reached once
    [last_percent is not None]:
    [if last_percent == 0 and percent > 0: ... elif last_percent > 0 and percent == 0: ...] *)
Definition heat_transition (last percent : json) : M unit :=
  heat_on <- (if py_eq0 last then lift (py_gt0 percent) else ret false) ;;
  if heat_on then
    call (Cexecute_trigger "on_heater_on")
         (execute_trigger (triggers_config cfg) "on_heater_on")
  else
    heat_off <- (positive <- lift (py_gt0 last) ;;
                 if positive then ret (py_eq0 percent) else ret false) ;;
    if heat_off then
      call (Cexecute_trigger "on_heater_off")
           (execute_trigger (triggers_config cfg) "on_heater_off")
    else ret tt.

(** The body of the [try] of the trigger logic; its value is the new
    [last_percent]. *)
Definition trigger_logic (last percent : json) : M json :=
  (match last with
   | JNull => ret tt
   | _ => heat_transition last percent
   end) ;;
  ret percent.

(** The trigger logic of one successful sample: only active in trigger
    mode, where an exception of the [try] body is logged and leaves
    [last_percent] as it was. Its value is [last_percent] afterwards. *)
Definition trigger_handling (last percent : json) : M json :=
  match args_mode with
  | trigger =>
      try_catch (trigger_logic last percent) (fun _ => ret last)
  | _ => ret last
  end.

(** One turn of the [while True] of [main]. A raised exception is one
    that leaves the loop. *)
Definition poll_cycle (st : locals) : M locals :=
  info <- call Cget_all_info (get_all_info (thermostat st)) ;;
  match info with
  | JNull =>
      reconnected <- call Creconnect (reconnect 6 5) ;;
      if negb reconnected then
        time_sleep (JInt (interval cfg)) ;; ret st
      else reselect_device st
  | _ =>
      if has_key info "error" then
        error <- lift (py_getitem info "error") ;;
        err_code <- lift (py_get error "code" JNull) ;;
        if py_eq_str err_code "USRSESSEXP" || py_eq_str err_code "SESSION_EXPIRED"
           || py_eq_str err_code "SESSIONINVALID" then
          reconnected <- call Creconnect (reconnect 6 5) ;;
          if negb reconnected then
            time_sleep (JInt (interval cfg)) ;; ret st
          else reselect_device st
        else if py_eq_str err_code "ACCSESSEXC" then
          reconnected <- call Creconnect (reconnect 6 5) ;;
          if negb reconnected then
            time_sleep (JInt (interval cfg)) ;; ret st
          else
            time_sleep (JInt (interval cfg)) ;; ret st
        else
          reconnected <- call Creconnect (reconnect 6 5) ;;
          if negb reconnected then
            time_sleep (JInt (interval cfg)) ;; ret st
          else
            time_sleep (JInt (interval cfg)) ;; ret st
      else
        let percent := extract_percent info in
        _ <- lift (py_contains info "outputPercentDisplay") ;;
        last <- trigger_handling (last_percent st) percent ;;
        time_sleep (JInt (interval cfg)) ;;
        ret (mkLocals (thermostat st) last)
  end.

(** The first [cycles] turns of the loop. *)
Fixpoint main_loop (cycles : nat) (st : locals) : M status :=
  match cycles with
  | O => ret (Polling st)
  | S n => st' <- poll_cycle st ;; main_loop n st'
  end.

(** The initial connect of [main]: a message when [main] returns there. *)
Definition startup : M (string + Thermostat) :=
  logged_in <- call Clogin login ;;
  if negb logged_in then ret (inl "Initial login failed. Exiting.")
  else
    listed <- call Cget_devices get_devices ;;
    if negb listed then ret (inl "Initial device fetch failed. Exiting.")
    else
      c <- get_client ;;
      device <- lift (find_device (devices c) (deviceId cfg)) ;;
      match device with
      | Some d =>
          if negb (truthy d) then ret (inl "Device ID not found.")
          else t <- lift (Thermostat_init d) ;; ret (inr t)
      | None => ret (inl "Device ID not found.")
      end.

(** [main], once the configuration is loaded, observed for [cycles]
    turns of its loop. The interrupt of the user (Ctrl-C) is not part
    of the runs. *)
Definition main (cycles : nat) : M status :=
  s <- startup ;;
  match s with
  | inl message => ret (StartupError message)
  | inr t =>
      match args_mode with
      | once =>
          _ <- call Cget_all_info (get_all_info t) ;;
          call Cdisconnect disconnect ;;
          ret Finished
      | _ =>
          (* [finally: client.disconnect()], when an exception leaves the loop *)
          try_catch (main_loop cycles (mkLocals t JNull))
                    (fun e => call Cdisconnect disconnect ;; raise e)
      end
  end.

End Monitor.

(** * Vocabulary of the properties

    Observations on a run, the classes of samples and values the
    properties speak about, and the worlds, configurations and replies
    of the concrete runs. *)

Definition result_of {A} (x : res A * world * list event) : res A := fst (fst x).
Definition world_of {A} (x : res A * world * list event) : world := snd (fst x).
Definition events_of {A} (x : res A * world * list event) : list event := snd x.

(** A computation returns when it ends without an exception. *)
Definition returns {A} (x : res A * world * list event) : Prop :=
  exists a, result_of x = Ret a.

(** [time.sleep(v)] accepts its argument: a number whose count of
    nanoseconds fits the clock and is not negative. For an integer
    these are the lengths from 0 to 9223372036 seconds. *)
Definition sleepable (v : json) : bool :=
  match sleep_ns v with
  | Ret ns => 0 <=? ns
  | Raise _ => false
  end.

(** The exception of [time.sleep(v)] when it refuses [v]. *)
Definition sleep_error (v : json) : exn :=
  match sleep_ns v with
  | Ret _ => ValueError
  | Raise e => e
  end.

(** A record of the logger. *)
Definition is_log (e : event) : bool :=
  match e with
  | ELog _ _ _ => true
  | _ => false
  end.

(** A run with the records of the logger left out. *)
Definition muted {A} (x : res A * world * list event) : res A * world * list event :=
  (result_of x, world_of x, filter (fun e => negb (is_log e)) (events_of x)).

(** A world for concrete runs: every request gets [reply], every
    process ends with [code], key presses go through when [keys]. *)
Definition steady_world (reply : option json) (code : option Z) (keys nt : bool) : world :=
  mkWorld 0 (fun _ => reply) (fun _ => code) (fun _ => keys) nt (mkClient JNull []).

(** A world whose requests are answered from a list, in order; a
    request after the last one raises. *)
Definition scripted_world (replies : list (option json)) : world :=
  mkWorld 0 (fun n => nth n replies None) (fun _ => Some 0) (fun _ => true) false
          (mkClient JNull []).

Definition ping_localhost : json :=
  JObj [("type", JStr "ping"); ("host", JStr "127.0.0.1")].

Definition press_a_twice : json :=
  JObj [("action_type", JStr "keyboard"); ("key", JStr "a"); ("repeat", JInt 2);
        ("condition", ping_localhost)].

(** An integer between 0 and 100. *)
Definition is_percent (v : json) : bool :=
  match v with
  | JInt z => (0 <=? z) && (z <=? 100)
  | _ => false
  end.

Definition sample (percent : json) : json :=
  JObj [("roomTemperature", JInt 21);
        ("outputPercentDisplay", JObj [("percent", percent); ("sourceType", JStr "heating")])].

(** An error object of the API whose code is [ACCSESSEXC]: a dict with
    no [session], whose [error] is a dict with that [code]. *)
Definition accsessexc_error (v : json) : bool :=
  negb (has_key v "session")
  && match v with
     | JObj kvs =>
         match dict_get_or kvs "error" (JObj []) with
         | JObj e => py_eq_str (dict_get_or e "code" JNull) "ACCSESSEXC"
         | _ => false
         end
     | _ => false
     end.

(** The login requests among the events of a call. *)
Definition login_requests (t : list event) : nat :=
  length (filter (fun e => match e with ERequest LOGIN_URL => true | _ => false end) t).

Definition too_many_sessions : json :=
  JObj [("error", JObj [("code", JStr "ACCSESSEXC")])].




(** The sample of a poll, as the loop classifies it. *)
Definition no_response (info : json) : bool :=
  match info with
  | JNull => true
  | _ => false
  end.



(** [v > 0] holds (and does not raise). *)
Definition is_pos (v : json) : bool :=
  match py_gt0 v with
  | Ret b => b
  | Raise _ => false
  end.

(** [v > 0] does not raise. *)
Definition is_number (v : json) : bool :=
  match py_gt0 v with
  | Ret _ => true
  | Raise _ => false
  end.

(** A call to [execute_trigger] with that name is among the events. *)
Definition fired (trigger_name : string) (t : list event) : Prop :=
  exists body, In (ECall (Cexecute_trigger trigger_name) body) t.

(** The trigger that the transition from [last] to [percent] calls for. *)
Definition transition (last percent : json) : option string :=
  match last with
  | JNull => None
  | _ =>
      if py_eq0 last && is_pos percent then Some "on_heater_on"
      else if is_pos last && py_eq0 percent then Some "on_heater_off"
      else None
  end.

(** Python's [str()] on [None], booleans, integers and strings, the
    values that device ids take in the runs below. *)
Definition str_of_scalar (v : json) : string :=
  match v with
  | JNull => "None"
  | JBool true => "True"
  | JBool false => "False"
  | JInt z => NilZero.string_of_int (Z.to_int z)
  | JStr s => s
  | _ => ""
  end.

Definition kitchen : Thermostat :=
  mkThermostat (JInt 7) (JStr "Kitchen") (JObj [("id", JInt 7); ("name", JStr "Kitchen")]).

Definition beep_on_heat : config :=
  mkConfig (JStr "7") 10
           (JObj [("on_heater_on",
                   JArr [JObj [("action_type", JStr "keyboard"); ("key", JStr "f9")]])]).

Definition heating_at_45 : world :=
  scripted_world [Some (sample (JInt 45))].

Definition pause_on_heat : config :=
  mkConfig (JStr "7") 10
           (JObj [("on_heater_on", JArr [JObj [("action_type", JStr "sleep"); ("seconds", JInt 1)]]);
                  ("on_heater_off", JArr [JObj [("action_type", JStr "sleep"); ("seconds", JInt 2)]])]).


(** The trigger handling of a sample goes through: the trigger that
    fires, if any, runs to its end without an exception; when none
    fires, there was no recorded percent or both percents are numbers. *)
Definition handled (cfg : config) (last percent : json) (w : world) : Prop :=
  match transition last percent with
  | Some trigger_name => returns (execute_trigger (triggers_config cfg) trigger_name w)
  | None => last = JNull \/ (is_number last = true /\ is_number percent = true)
  end.

(** A network that is down for the whole turn. *)
Definition offline : world := steady_world None None true false.





Definition kitchen_device : json := JObj [("id", JInt 7); ("name", JStr "Kitchen")].

Definition hall_device : json := JObj [("id", JInt 7); ("name", JStr "Hall")].

Definition hall : Thermostat := mkThermostat (JInt 7) (JStr "Hall") hall_device.

Definition session_granted : json := JObj [("session", JStr "3f9a")].

(** Login and device fetch succeed at startup. *)
Definition startup_world : world :=
  scripted_world [Some session_granted; Some (JArr [kitchen_device])].

(** A configuration that asks for a device the account does not have. *)
Definition wrong_device : config := mkConfig (JStr "8") 10 (JObj []).

(** A connected client that tracks the kitchen thermostat; the requests
    of the turn are answered from the list. *)
Definition connected_world (replies : list (option json)) : world :=
  mkWorld 0 (fun n => nth n replies None) (fun _ => Some 0) (fun _ => true) false
          (mkClient (JStr "70c1") [kitchen_device]).

Definition api_error_object (code : string) : json :=
  JObj [("error", JObj [("code", JStr code)])].

(** The poll is answered by an error object; the reconnect then goes
    through at once and the device list comes back with the tracked
    device renamed. *)
Definition renamed_after (code : string) : world :=
  connected_world [Some (api_error_object code); Some (JObj []);
                   Some session_granted; Some (JArr [hall_device])].

(** ** Vocabulary of the further properties *)

(** A run of the [ping] command. *)
Definition is_probe (e : event) : bool :=
  match e with
  | ERun (Ping_nt _ _ _) | ERun (Ping_posix _ _ _) => true
  | _ => false
  end.

(** The node of one thread of a parallel block. *)
Definition is_thread (e : event) : bool :=
  match e with
  | ECall Cthread _ => true
  | _ => false
  end.

(** [isinstance(item, dict) and item.get("action_type") == "parallel"] *)
Definition is_parallel (item : json) : bool :=
  is_dict item
  && py_eq_str (match item with
                | JObj kvs => dict_get_or kvs "action_type" JNull
                | _ => JNull
                end) "parallel".

(** What the loop of [_execute_action_list] does with one item. *)
Definition run_item (item : json) : M unit :=
  if is_parallel item then _execute_parallel_block item else execute item.

(** A sequential action whose [enabled] is falsy. *)
Definition disabled_action (item : json) : bool :=
  negb (is_parallel item)
  && match item with
     | JObj kvs => negb (truthy (dict_get_or kvs "enabled" (JBool true)))
     | _ => false
     end.

(** [v / 1000.0] does not raise. *)
Definition divisible (v : json) : bool :=
  match py_div_1000 v with
  | Ret _ => true
  | Raise _ => false
  end.

(** [n] times [e], with the repeat delay between two of them. *)
Definition spaced (e : event) (n : nat) : list event :=
  match n with
  | O => []
  | S m => e :: concat (repeat [ESleep REPEAT_DELAY_IN_SECONDS; e] m)
  end.

(** The threads of a parallel block started one after the other from
    the world [w]: one node for each child, in the order of the list,
    holding the events of [execute] on that child from the world that
    the threads before it have left. *)
Inductive one_thread_each : list json -> world -> list event -> world -> Prop :=
| no_child (w : world) : one_thread_each [] w [] w
| next_child (child : json) (rest : list json) (w w' : world) (t : list event) :
    one_thread_each rest (world_of (execute child w)) t w' ->
    one_thread_each (child :: rest) w (ECall Cthread (events_of (execute child w)) :: t) w'.

(** The world after [n] collaborator calls. *)
Fixpoint ticks (n : nat) (w : world) : world :=
  match n with
  | O => w
  | S m => ticks m (tick w)
  end.

(** An item of an action list that the trigger manager and the
    executor handle without an exception: a parallel block whose
    [actions] has a length, or a dict whose condition is absent, falsy
    or a dict. *)
Definition well_formed_item (item : json) : bool :=
  match item with
  | JObj kvs =>
      if is_parallel item then
        match dict_get_or kvs "actions" (JArr []) with
        | JArr _ | JObj _ | JStr _ => true
        | _ => false
        end
      else
        negb (truthy (dict_get_or kvs "condition" JNull))
        || is_dict (dict_get_or kvs "condition" JNull)
  | _ => false
  end.

(** The [ping] process is run and ends with return code 0: on Windows
    it is always run, elsewhere only when the timeout can be divided. *)
Definition ping_passes (condition : list (string * json)) (w : world) : bool :=
  (os_nt w || divisible (dict_get_or condition "timeout" (JInt 100)))
  && match subprocess w (clock w) with
     | Some returncode => returncode =? 0
     | None => false
     end.

(** [range(v)] is empty or raises: [v] is an integer below 1, [False],
    or not an integer at all. *)
Definition no_repeat (v : json) : bool :=
  match py_range v with
  | Ret (S _) => false
  | _ => true
  end.

(** An enabled action without a condition, of the given type. *)
Definition plain_action (kvs : list (string * json)) (action_type : string) : Prop :=
  truthy (dict_get_or kvs "enabled" (JBool true)) = true
  /\ truthy (dict_get_or kvs "condition" JNull) = false
  /\ dict_get_or kvs "action_type" JNull = JStr action_type.

(** The next [n] key presses go through. *)
Definition keys_go_through (n : nat) (w : world) : Prop :=
  forall i, (i < n)%nat -> keyboard w (clock w + i) = true.

(** The next [n] processes are run (with whatever return code). *)
Definition processes_run (n : nat) (w : world) : Prop :=
  forall i, (i < n)%nat -> subprocess w (clock w + i) <> None.

Definition press_f9_thrice : list (string * json) :=
  [("action_type", JStr "keyboard"); ("key", JStr "f9"); ("repeat", JInt 3)].

Definition run_backup_twice : list (string * json) :=
  [("action_type", JStr "command"); ("command", JStr "backup.sh"); ("repeat", JInt 2)].

(** The second key press fails. *)
Definition second_key_fails : world :=
  mkWorld 0 (fun _ => None) (fun _ => Some 0) (fun n => negb (Nat.eqb n 1)) false
          (mkClient JNull []).

(** Every process ends with return code 3. *)
Definition failing_commands : world := steady_world None (Some 3) true false.

(** [str(d.get("id")) == str(wanted)] on a dict. *)
Definition id_matches (py_str : json -> string) (wanted d : json) : bool :=
  match d with
  | JObj kvs => String.eqb (py_str (dict_get_or kvs "id" JNull)) (py_str wanted)
  | _ => false
  end.

(** A dict whose id is another one. *)
Definition other_device (py_str : json -> string) (wanted d : json) : bool :=
  is_dict d && negb (id_matches py_str wanted d).

(** A reconnect that goes through at once: the logout, a session, a
    list with the hall thermostat. *)
Definition reconnecting_world : world :=
  connected_world [Some (JObj []); Some session_granted; Some (JArr [hall_device])].


(** A reply body that is a bare number or boolean. *)
Definition scalar_body (info : json) : bool :=
  match info with
  | JBool _ | JInt _ | JFloat _ => true
  | _ => false
  end.


(** A body that the loop takes as a sample: not [None], not an error
    object, and one that [in] can be asked about. *)
Definition taken_as_sample (info : json) : bool :=
  negb (no_response info) && negb (has_key info "error")
  && match py_contains info "outputPercentDisplay" with
     | Ret _ => true
     | Raise _ => false
     end.


(** The poll is answered by the number 45. *)
Definition bare_number_reply : world := scripted_world [Some (JInt 45)].


(** Startup goes through and the first poll is answered by a number. *)
Definition dying_world : world :=
  scripted_world [Some session_granted; Some (JArr [kitchen_device]); Some (JInt 45)].

(** * Properties *)

(** ** Running the monad *)

Lemma returns_Ret {A} (a : A) w t : returns (Ret a, w, t).
Proof. exists a. reflexivity. Qed.

Lemma try_catch_ret_returns {A} (m : M A) (a : A) (w : world) :
  returns (try_catch m (fun _ => ret a) w).
Proof.
  unfold try_catch, ret.
  destruct (m w) as [[[x | e] w1] t1]; eauto using returns_Ret.
Qed.

Lemma bind_returns {A B} (m : M A) (k : A -> M B) (w : world) :
  returns (m w) ->
  (forall a w1, returns (k a w1)) ->
  returns (bind m k w).
Proof.
  intros [a Ha] Hk. unfold bind.
  destruct (m w) as [[r w1] t1]. cbn in Ha. subst r.
  specialize (Hk a w1). destruct (k a w1) as [[r2 w2] t2].
  destruct Hk as [b Hb]. cbn in Hb. subst. apply returns_Ret.
Qed.

(** ** The condition checker *)

Lemma check_returns (c : json) (w : world) :
  truthy c = false \/ is_dict c = true -> returns (check c w).
Proof.
  intros H. unfold check.
  destruct (truthy c) eqn:T; cbn.
  - destruct H as [H | H]; [discriminate |].
    destruct c; try discriminate.
    unfold bind, lift, py_get.
    pose proof (try_catch_ret_returns
                  (if py_eq_str (dict_get_or kvs "type" JNull) "ping"
                   then _check_ping (JObj kvs) else ret true) false w) as [b Hb].
    destruct (try_catch _ _ w) as [[r w2] t2]. cbn in Hb. subst r.
    apply returns_Ret.
  - apply returns_Ret.
Qed.

Lemma muted_result {A} (x : res A * world * list event) : result_of (muted x) = result_of x.
Proof. reflexivity. Qed.

Lemma check_ping_logged_erase (c : json) (w : world) :
  _check_ping c w = muted (_check_ping_logged c w).
Proof.
  destruct c as [| | | | | | kvs]; try reflexivity.
  unfold _check_ping, _check_ping_logged, muted, logger, emit, bind, lift, py_get,
    get_os_nt, subprocess_run, ret.
  destruct (os_nt w);
    [| destruct (py_div_1000 (dict_get_or kvs "timeout" (JInt 100))) as [sec | e];
       [| reflexivity]];
    cbv beta iota;
    (destruct (subprocess w (clock w)) as [code |]; [destruct (code =? 0) |]); reflexivity.
Qed.

(** [check] is [check_logged] with the records of the logger left out. *)
Lemma check_logged_erase (c : json) (w : world) : check c w = muted (check_logged c w).
Proof.
  unfold check, check_logged. destruct (truthy c); cbn [negb]; [| reflexivity].
  destruct c as [| | | | | | kvs]; try reflexivity.
  unfold bind, lift, py_get, try_catch, logger, emit, ret.
  destruct (py_eq_str (dict_get_or kvs "type" JNull) "ping"); [| reflexivity].
  rewrite check_ping_logged_erase.
  destruct (_check_ping_logged (JObj kvs) w) as [[[b | e] w1] t1]; unfold muted; cbn.
  - reflexivity.
  - now rewrite filter_app, !app_nil_r.
Qed.

(** C3, as the code has it. An absent (falsy) condition passes, with no
    record; a dict condition whose kind is not the reachability probe
    passes (fail open) and one warning naming the kind is logged; when
    the probe raises, the check answers false (fail closed) with the
    events and the world that the probe left and one error record, and
    otherwise it answers what the probe answers. So the check of a
    condition that is falsy or a dict never raises, whereas a truthy
    condition that is not a dict ends it in an [AttributeError].
    [check], which the executor calls, is this function without the
    records. *)
Theorem check_absent_unknown_error (w : world) :
  (forall c, truthy c = false -> check_logged c w = (Ret true, w, []))
  /\ (forall kvs,
         truthy (JObj kvs) = true ->
         py_eq_str (dict_get_or kvs "type" JNull) "ping" = false ->
         check_logged (JObj kvs) w
         = (Ret true, w,
            [ELog WARNING "Unknown condition type: {condition_type}"
                  [dict_get_or kvs "type" JNull]]))
  /\ (forall kvs e w' t,
         truthy (JObj kvs) = true ->
         py_eq_str (dict_get_or kvs "type" JNull) "ping" = true ->
         _check_ping_logged (JObj kvs) w = (Raise e, w', t) ->
         check_logged (JObj kvs) w
         = (Ret false, w',
            t ++ [ELog ERROR "Error checking condition {condition}: {e}" [JObj kvs]]))
  /\ (forall kvs b w' t,
         truthy (JObj kvs) = true ->
         py_eq_str (dict_get_or kvs "type" JNull) "ping" = true ->
         _check_ping_logged (JObj kvs) w = (Ret b, w', t) ->
         check_logged (JObj kvs) w = (Ret b, w', t))
  /\ (forall c, truthy c = false \/ is_dict c = true -> returns (check_logged c w))
  /\ (forall c,
         truthy c = true -> is_dict c = false ->
         check_logged c w = (Raise AttributeError, w, []))
  /\ (forall c, check c w = muted (check_logged c w)).
Proof.
  split; [| split; [| split; [| split; [| split; [| split]]]]].
  - intros c T. unfold check_logged. rewrite T. reflexivity.
  - intros kvs T K. unfold check_logged. rewrite T. cbn [negb].
    unfold bind at 1. unfold lift, py_get, try_catch. rewrite K. reflexivity.
  - intros kvs e w' t T K P. unfold check_logged. rewrite T. cbn [negb].
    unfold bind at 1. unfold lift, py_get, try_catch. rewrite K, P. reflexivity.
  - intros kvs b w' t T K P. unfold check_logged. rewrite T. cbn [negb].
    unfold bind at 1. unfold lift, py_get, try_catch. rewrite K, P.
    reflexivity.
  - intros c H. destruct (check_returns c w H) as [b R].
    rewrite check_logged_erase, muted_result in R. now exists b.
  - intros c T D. unfold check_logged. rewrite T.
    destruct c; try discriminate; reflexivity.
  - intros c. apply check_logged_erase.
Qed.

Lemma check_absent_unknown_error_witness :
  check_logged JNull (steady_world None None true false)
    = (Ret true, steady_world None None true false, []) /\
  check_logged (JObj [("type", JStr "moon_phase")]) (steady_world None None true false)
    = (Ret true, steady_world None None true false,
       [ELog WARNING "Unknown condition type: {condition_type}" [JStr "moon_phase"]]) /\
  check_logged ping_localhost (steady_world None None true false)
    = (Ret false, tick (steady_world None None true false),
       [ELog INFO "Checking ping condition: {host} (count={count}, timeout={timeout_ms}ms)"
             [JStr "127.0.0.1"; JInt 1; JInt 100];
        ERun (Ping_posix (JInt 1) (JFloat (inject_Z 100 / 1000)%Q) (JStr "127.0.0.1"));
        ELog ERROR "Error checking condition {condition}: {e}" [ping_localhost]]).
Proof.
  pose proof (check_absent_unknown_error (steady_world None None true false))
    as (H1 & H2 & H3 & _).
  split; [| split].
  - apply H1. reflexivity.
  - apply (H2 [("type", JStr "moon_phase")]); reflexivity.
  - apply (H3 [("type", JStr "ping"); ("host", JStr "127.0.0.1")] CollaboratorError
              (tick (steady_world None None true false))
              [ELog INFO
                    "Checking ping condition: {host} (count={count}, timeout={timeout_ms}ms)"
                    [JStr "127.0.0.1"; JInt 1; JInt 100];
               ERun (Ping_posix (JInt 1) (JFloat (inject_Z 100 / 1000)%Q) (JStr "127.0.0.1"))]);
      reflexivity.
Defined.

(** C3 as stated fails: a condition that is truthy and not a dict (a
    number, a list, [True]) is not answered at all; the check ends in
    an [AttributeError], raised by [condition.get] before the [try]. *)
Lemma check_raises_on_non_dict_condition :
  check_logged (JInt 1) (steady_world None (Some 0) true false)
    = (Raise AttributeError, steady_world None (Some 0) true false, []) /\
  check (JInt 1) (steady_world None (Some 0) true false)
    = (Raise AttributeError, steady_world None (Some 0) true false, []) /\
  result_of (check_logged (JArr [JStr "ping"]) (steady_world None (Some 0) true false))
    = Raise AttributeError /\
  result_of (check_logged (JBool true) (steady_world None (Some 0) true false))
    = Raise AttributeError.
Proof. repeat split. Qed.

(** ** The action executor *)

Lemma execute_returns (kvs : list (string * json)) (w : world) :
  truthy (dict_get_or kvs "condition" JNull) = false
  \/ is_dict (dict_get_or kvs "condition" JNull) = true ->
  returns (execute (JObj kvs) w).
Proof.
  intros H. unfold execute.
  unfold bind at 1. unfold lift at 1. unfold py_get at 1.
  destruct (negb (truthy (dict_get_or kvs "enabled" (JBool true)))).
  { apply returns_Ret. }
  unfold bind at 1. unfold lift at 1. unfold py_get at 1.
  set (c := dict_get_or kvs "condition" JNull) in *.
  remember (if truthy c
            then passed <- check c ;; ret (negb passed)
            else ret false) as gate eqn:G.
  assert (Hskip : returns (gate w)).
  { subst gate. destruct (truthy c) eqn:T.
    - apply bind_returns.
      + apply check_returns. destruct H as [H | H]; [congruence | now right].
      + intros a w1. apply returns_Ret.
    - apply returns_Ret. }
  clear G. unfold bind at 1.
  destruct Hskip as [skip Hskip].
  destruct (gate w) as [[r w1] t1].
  cbn in Hskip. subst r.
  destruct skip.
  { apply returns_Ret. }
  unfold bind at 1. unfold lift at 1. unfold py_get at 1.
  match goal with
  | |- context [try_catch ?m (fun _ => ret tt) w1] =>
      pose proof (try_catch_ret_returns m tt w1) as [u Hu];
      destruct (try_catch m (fun _ => ret tt) w1) as [[r2 w2] t2]
  end.
  cbn in Hu. subst r2. apply returns_Ret.
Qed.

(** C4, as the code has it. Given a dict whose condition is absent,
    falsy or a dict, [execute] ends without an exception whatever the
    keyboard, the processes and the probe do; given a condition that is
    falsy or a dict, so does [check]. *)
Theorem execute_check_never_raise (w : world) :
  (forall c,
      truthy c = false \/ is_dict c = true ->
      returns (check c w)) /\
  (forall kvs,
      truthy (dict_get_or kvs "condition" JNull) = false
      \/ is_dict (dict_get_or kvs "condition" JNull) = true ->
      returns (execute (JObj kvs) w)).
Proof.
  split.
  - intros c H. now apply check_returns.
  - intros kvs H. now apply execute_returns.
Qed.

(** The probe succeeds and the key press fails: the failure is swallowed. *)
Lemma execute_check_never_raise_witness :
  returns (check ping_localhost (steady_world None (Some 0) false false)) /\
  returns (execute press_a_twice (steady_world None (Some 0) false false)) /\
  events_of (execute press_a_twice (steady_world None (Some 0) false false))
    = [ERun (Ping_posix (JInt 1) (JFloat (inject_Z 100 / 1000)%Q) (JStr "127.0.0.1"));
       EKey (JStr "a")].
Proof.
  split; [| split].
  - apply (proj1 (execute_check_never_raise _)). right. reflexivity.
  - apply (proj2 (execute_check_never_raise _)
             [("action_type", JStr "keyboard"); ("key", JStr "a"); ("repeat", JInt 2);
              ("condition", ping_localhost)]).
    right. reflexivity.
  - reflexivity.
Defined.

(** C4 as stated fails: an action that is not a dict, a condition that
    is a non-empty string and a dict action carrying such a condition
    all end in an [AttributeError] that leaves [execute] or [check]. *)
Lemma execute_check_raise_on_non_dict :
  result_of (execute (JStr "beep") (steady_world None None true false)) = Raise AttributeError /\
  result_of (check (JStr "ping") (steady_world None None true false)) = Raise AttributeError /\
  result_of (execute (JObj [("action_type", JStr "sleep"); ("condition", JStr "ping")])
                     (steady_world None None true false)) = Raise AttributeError.
Proof. repeat split. Qed.

(** ** The percent of a sample *)

Lemma dict_get_or_Some kvs k d v : dict_get kvs k = Some v -> dict_get_or kvs k d = v.
Proof. unfold dict_get_or. now intros ->. Qed.

Lemma dict_get_or_None kvs k d : dict_get kvs k = None -> dict_get_or kvs k d = d.
Proof. unfold dict_get_or. now intros ->. Qed.

(** C5, as the code has it. The percent of a sample is 0 when the
    sample has no [outputPercentDisplay], when that field has no
    [percent] or is not a dict; otherwise it is the value of
    [outputPercentDisplay.percent] as the API gave it, so it is an
    integer of [0,100] exactly when the API sent one.
    [Thermostat.get_output_percent] gives the same value. *)
Theorem extract_percent_default_or_field (kvs : list (string * json)) :
  (dict_get kvs "outputPercentDisplay" = None ->
   extract_percent (JObj kvs) = JInt 0) /\
  (forall display,
      dict_get kvs "outputPercentDisplay" = Some (JObj display) ->
      dict_get display "percent" = None ->
      extract_percent (JObj kvs) = JInt 0) /\
  (forall x,
      dict_get kvs "outputPercentDisplay" = Some x -> is_dict x = false ->
      extract_percent (JObj kvs) = JInt 0) /\
  (forall display v,
      dict_get kvs "outputPercentDisplay" = Some (JObj display) ->
      dict_get display "percent" = Some v ->
      extract_percent (JObj kvs) = v
      /\ is_percent (extract_percent (JObj kvs)) = is_percent v) /\
  (forall t w,
      get_output_percent t (JObj kvs) w = (Ret (extract_percent (JObj kvs)), w, [])).
Proof.
  assert (G : forall t w,
             get_output_percent t (JObj kvs) w = (Ret (extract_percent (JObj kvs)), w, [])).
  { intros t w. destruct kvs; reflexivity. }
  unfold extract_percent, percent_field, py_get.
  split; [| split; [| split; [| split; [| exact G]]]].
  - intros H. rewrite (dict_get_or_None _ _ _ H). reflexivity.
  - intros display H H'. rewrite (dict_get_or_Some _ _ _ _ H).
    rewrite (dict_get_or_None _ _ _ H'). reflexivity.
  - intros x H D. rewrite (dict_get_or_Some _ _ _ _ H).
    destruct x; try reflexivity. discriminate.
  - intros display v H H'. rewrite (dict_get_or_Some _ _ _ _ H).
    rewrite (dict_get_or_Some _ _ _ _ H'). split; reflexivity.
Qed.

Lemma extract_percent_default_or_field_witness :
  extract_percent (JObj [("roomTemperature", JInt 21)]) = JInt 0 /\
  extract_percent (JObj [("outputPercentDisplay", JObj [])]) = JInt 0 /\
  extract_percent (JObj [("outputPercentDisplay", JInt 45)]) = JInt 0 /\
  extract_percent (sample (JInt 45)) = JInt 45.
Proof.
  split; [| split; [| split]].
  - apply (proj1 (extract_percent_default_or_field _)). reflexivity.
  - apply (proj1 (proj2 (extract_percent_default_or_field _)) []); reflexivity.
  - apply (proj1 (proj2 (proj2 (extract_percent_default_or_field _))) (JInt 45)); reflexivity.
  - apply (proj1 (proj2 (proj2 (proj2 (extract_percent_default_or_field _))))
             [("percent", JInt 45); ("sourceType", JStr "heating")] (JInt 45));
      reflexivity.
Defined.

(** C5 as stated fails: a percent of 150 and a null percent both reach
    the transition logic as they are. *)
Lemma extract_percent_out_of_range :
  extract_percent (sample (JInt 150)) = JInt 150 /\
  is_percent (extract_percent (sample (JInt 150))) = false /\
  extract_percent (sample JNull) = JNull.
Proof. repeat split. Qed.

(** ** Login *)

Lemma login_retry_run (w : world) (first : json) :
  http w (clock w) = Some first ->
  accsessexc_error first = true ->
  exists w',
    login w
    = (Ret (match http w (S (S (clock w))) with
            | Some second => has_key second "session"
            | None => false
            end),
       w',
       [ERequest LOGIN_URL; ERequest LOGOUT_URL]
       ++ (match http w (S (clock w)) with Some _ => [ESleep (JInt 2)] | None => [] end)
       ++ [ERequest LOGIN_URL]).
Proof.
  intros H E.
  unfold accsessexc_error in E. apply andb_prop in E. destruct E as [E1 E2].
  apply negb_true_iff in E1.
  destruct first as [| | | | | | kvs]; try discriminate.
  destruct (dict_get_or kvs "error" (JObj [])) as [| | | | | | e] eqn:De; try discriminate.
  unfold login, request_or_none, try_catch, bind, request.
  cbn in E1. destruct (dict_get kvs "session") eqn:Ds; [discriminate |].
  rewrite H. cbn. rewrite Ds. rewrite De. cbn. rewrite E2. cbn.
  destruct (http w (S (clock w))) as [bye |]; cbn;
    destruct (http w (S (S (clock w)))) as [second |]; cbn;
    try (eexists; reflexivity);
    destruct second as [| | | | | | kvs2]; cbn; try (eexists; reflexivity);
    destruct (dict_get kvs2 "session"); cbn; eexists; reflexivity.
Qed.

(** C10. When the first reply to the login request is an [ACCSESSEXC]
    error object, [login] posts the logout (sleeping 2 s when that post
    goes through), posts the login request once more and stops there:
    two login requests in all. It answers true exactly when the first
    reply or the reply to the retry holds a [session]. *)
Theorem login_too_many_sessions (w : world) (first : json) :
  http w (clock w) = Some first ->
  accsessexc_error first = true ->
  let logout := http w (S (clock w)) in
  let retry := http w (S (S (clock w))) in
  let requests :=
    [ERequest LOGIN_URL; ERequest LOGOUT_URL]
    ++ (match logout with Some _ => [ESleep (JInt 2)] | None => [] end)
    ++ [ERequest LOGIN_URL] in
  login_requests requests = 2%nat
  /\ exists b w',
      login w = (Ret b, w', requests)
      /\ (b = true <->
          has_key first "session" = true
          \/ exists second, retry = Some second /\ has_key second "session" = true).
Proof.
  intros H E logout retry requests.
  split.
  { subst requests. destruct logout; reflexivity. }
  destruct (login_retry_run w first H E) as [w' R].
  eexists. exists w'. split; [exact R |].
  assert (F : has_key first "session" = false).
  { unfold accsessexc_error in E. apply andb_prop in E.
    now apply negb_true_iff. }
  fold retry. destruct retry as [second |].
  - split.
    + intros S. right. exists second. now split.
    + intros [S | (s & S & G)]; [congruence |]. now inversion S.
  - split; [discriminate |].
    intros [S | (s & S & G)]; [congruence | discriminate].
Qed.

Lemma login_too_many_sessions_witness :
  let w := scripted_world [Some too_many_sessions; Some (JObj []);
                           Some (JObj [("session", JStr "3f9a")])] in
  login_requests [ERequest LOGIN_URL; ERequest LOGOUT_URL; ESleep (JInt 2); ERequest LOGIN_URL]
    = 2%nat
  /\ exists b w',
      login w = (Ret b, w',
                 [ERequest LOGIN_URL; ERequest LOGOUT_URL; ESleep (JInt 2); ERequest LOGIN_URL])
      /\ (b = true <->
          has_key too_many_sessions "session" = true
          \/ exists second,
              Some (JObj [("session", JStr "3f9a")]) = Some second
              /\ has_key second "session" = true).
Proof.
  exact (login_too_many_sessions
           (scripted_world [Some too_many_sessions; Some (JObj []);
                            Some (JObj [("session", JStr "3f9a")])])
           too_many_sessions eq_refl eq_refl).
Defined.

(** ** Reconnect *)



(** [time.sleep] pauses when it accepts its argument, and raises without
    a pause when it does not. *)
Lemma time_sleep_run (v : json) (w : world) :
  time_sleep v w
  = if sleepable v then (Ret tt, w, [ESleep v]) else (Raise (sleep_error v), w, []).
Proof.
  unfold time_sleep, sleepable, sleep_error.
  destruct (sleep_ns v) as [ns | e]; [| reflexivity].
  rewrite Z.leb_antisym. destruct (ns <? 0); reflexivity.
Qed.









(** ** The poll cycle *)

Lemma get_all_info_run (t : Thermostat) (w : world) :
  exists info w1 t1, get_all_info t w = (Ret info, w1, t1).
Proof.
  unfold get_all_info, get_device_attributes, try_catch, request.
  destruct (http w (clock w)); cbn; do 3 eexists; reflexivity.
Qed.

Lemma is_pos_not_zero (v : json) : is_pos v = true -> py_eq0 v = false.
Proof.
  destruct v; cbn; try discriminate.
  - now intros ->.
  - intros H. apply Z.ltb_lt in H. apply Z.eqb_neq. lia.
  - intros H. apply negb_true_iff in H.
    destruct (Qeq_bool q 0) eqn:E; [| reflexivity].
    apply Qeq_bool_iff in E.
    assert (L : Qle_bool q 0 = true) by (apply Qle_bool_iff; rewrite E; apply Qle_refl).
    congruence.
Qed.

Section MonitorFacts.

Variable cfg : config.

Lemma heat_transition_run (last percent : json) (w : world) :
  exists r w' t,
    heat_transition cfg last percent w = (r, w', t)
    /\ match (if py_eq0 last && is_pos percent then Some "on_heater_on"
              else if is_pos last && py_eq0 percent then Some "on_heater_off"
              else None) with
       | Some trigger_name =>
           t = [ECall (Cexecute_trigger trigger_name)
                      (events_of (execute_trigger (triggers_config cfg) trigger_name w))]
           /\ (returns (execute_trigger (triggers_config cfg) trigger_name w) ->
               r = Ret tt)
       | None =>
           t = [] /\ w' = w
           /\ (is_number last = true -> is_number percent = true -> r = Ret tt)
       end.
Proof.
  assert (N : forall nm,
             exists r w' t,
               call (Cexecute_trigger nm) (execute_trigger (triggers_config cfg) nm) w
               = (r, w', t)
               /\ t = [ECall (Cexecute_trigger nm)
                             (events_of (execute_trigger (triggers_config cfg) nm w))]
               /\ (returns (execute_trigger (triggers_config cfg) nm w) -> r = Ret tt)).
  { intros nm. unfold call.
    destruct (execute_trigger (triggers_config cfg) nm w) as [[[u | e] w1] t1]; cbn;
      do 3 eexists; (split; [reflexivity |]); split; try reflexivity.
    - intros _. now destruct u.
    - intros [a Ha]. discriminate. }
  unfold heat_transition.
  set (run := execute_trigger (triggers_config cfg)) in *. clearbody run.
  unfold bind, lift, ret, is_pos, is_number.
  pose proof (is_pos_not_zero last) as Z. unfold is_pos in Z.
  destruct (py_eq0 last); destruct (py_gt0 percent) as [[|] | e1];
    destruct (py_gt0 last) as [[|] | e2]; try (specialize (Z eq_refl); discriminate);
    destruct (py_eq0 percent); cbn;
    try (do 3 eexists; split; [reflexivity |]; repeat split; intros; discriminate);
    match goal with
    | |- context [call (Cexecute_trigger ?nm) _ w] =>
        destruct (N nm) as (r & w' & t & E & T & R); rewrite E;
        do 3 eexists; (split; [reflexivity |]); split; assumption
    end.
Qed.

(** The events of the trigger logic are the one call the transition
    asks for, or none; without an exception its value is [percent]. *)
Lemma trigger_logic_run (last percent : json) (w : world) :
  exists r w' t,
    trigger_logic cfg last percent w = (r, w', t)
    /\ (forall x, r = Ret x -> x = percent)
    /\ match transition last percent with
       | Some trigger_name =>
           t = [ECall (Cexecute_trigger trigger_name)
                      (events_of (execute_trigger (triggers_config cfg) trigger_name w))]
           /\ (returns (execute_trigger (triggers_config cfg) trigger_name w) ->
               r = Ret percent)
       | None =>
           t = [] /\ w' = w
           /\ (last = JNull \/ (is_number last = true /\ is_number percent = true) ->
               r = Ret percent)
       end.
Proof.
  unfold trigger_logic, transition.
  destruct last as [| b | z | q | s | l | kvs];
    try (exists (Ret percent), w, []; cbn; repeat split; now intros x [= <-]);
    match goal with
    | |- context [heat_transition cfg ?v percent] =>
        destruct (heat_transition_run v percent w) as (r & w' & t & E & C);
        unfold bind; rewrite E; clear E;
        destruct (if py_eq0 v && is_pos percent then Some "on_heater_on"
                  else if is_pos v && py_eq0 percent then Some "on_heater_off"
                  else None) as [nm |];
        destruct r as [u | e]; cbn;
        do 3 eexists; (split; [reflexivity |]);
        (split; [first [now intros x [= <-] | discriminate] |]);
        rewrite ?app_nil_r; intuition (try discriminate; try congruence)
    end.
Qed.

(** In trigger mode the handling ends without an exception, with the
    events of the trigger logic; [last_percent] becomes [percent] when
    the logic raised nothing, and stays otherwise. In the other modes
    nothing happens. *)
Lemma trigger_handling_run (args_mode : mode) (last percent : json) (w : world) :
  exists last' w' t,
    trigger_handling args_mode cfg last percent w = (Ret last', w', t)
    /\ (last' = percent \/ last' = last)
    /\ match args_mode with
       | trigger =>
           t = events_of (trigger_logic cfg last percent w)
           /\ (returns (trigger_logic cfg last percent w) -> last' = percent)
       | _ => t = [] /\ w' = w /\ last' = last
       end.
Proof.
  unfold trigger_handling.
  destruct args_mode;
    [ exists last, w, []; cbn; repeat split; now right
    | exists last, w, []; cbn; repeat split; now right
    | ].
  unfold try_catch.
  destruct (trigger_logic_run last percent w) as (r & w' & t & E & V & _).
  rewrite E. destruct r as [x | e]; cbn.
  - rewrite (V x eq_refl). do 3 eexists. split; [reflexivity |]. intuition.
  - do 3 eexists. split; [reflexivity |]. rewrite app_nil_r.
    split; [now right |]. split; [reflexivity |].
    intros [a Ha]. discriminate.
Qed.

Variable py_str : json -> string.




End MonitorFacts.

Lemma transition_on (last percent : json) :
  transition last percent = Some "on_heater_on"
  <-> py_eq0 last = true /\ is_pos percent = true.
Proof.
  unfold transition. split.
  - destruct last; try discriminate;
      match goal with
      | |- context [py_eq0 ?v && _] =>
          destruct (py_eq0 v); destruct (is_pos percent); cbn [andb];
          try (intros _; now split);
          destruct (is_pos v && py_eq0 percent); discriminate
      end.
  - intros [Z P]. destruct last; try discriminate; now rewrite Z, P.
Qed.

Lemma transition_off (last percent : json) :
  transition last percent = Some "on_heater_off"
  <-> is_pos last = true /\ py_eq0 percent = true.
Proof.
  unfold transition. split.
  - destruct last; try discriminate;
      match goal with
      | |- context [py_eq0 ?v && _] =>
          destruct (py_eq0 v && is_pos percent); [discriminate |];
          destruct (is_pos v); destruct (py_eq0 percent); cbn [andb];
          try discriminate; intros _; now split
      end.
  - intros [P Z]. pose proof (is_pos_not_zero _ P) as NZ.
    destruct last; try discriminate; now rewrite NZ, P, Z.
Qed.



(** The scenario of the specification: the samples 0, 45, 0 in trigger
    mode fire [on_heater_on] after the 45 and [on_heater_off] after the
    last 0, and nothing on the first sample. *)
Example scenario_0_45_0 :
  events_of (main_loop str_of_scalar trigger pause_on_heat 3 (mkLocals kitchen JNull)
                       (scripted_world [Some (sample (JInt 0)); Some (sample (JInt 45));
                                        Some (sample (JInt 0))]))
  = [ECall Cget_all_info [ERequest (DEVICE_DATA_URL (JInt 7))];
     ESleep (JInt 10);
     ECall Cget_all_info [ERequest (DEVICE_DATA_URL (JInt 7))];
     ECall (Cexecute_trigger "on_heater_on") [ESleep (JInt 1)];
     ESleep (JInt 10);
     ECall Cget_all_info [ERequest (DEVICE_DATA_URL (JInt 7))];
     ECall (Cexecute_trigger "on_heater_off") [ESleep (JInt 2)];
     ESleep (JInt 10)].
Proof. reflexivity. Qed.

(** ** The recorded percent *)

Lemma bind_result {A B} (m : M A) (k : A -> M B) (w : world) (b : B) :
  result_of (bind m k w) = Ret b ->
  exists a w1 t1, m w = (Ret a, w1, t1) /\ result_of (k a w1) = Ret b.
Proof.
  unfold bind. destruct (m w) as [[[a | e] w1] t1]; [| discriminate].
  intros H. exists a, w1, t1. split; [reflexivity |].
  destruct (k a w1) as [[r w2] t2]. exact H.
Qed.

Section RecordedPercent.

Variable py_str : json -> string.
Variable args_mode : mode.
Variable cfg : config.
Variable st : locals.






End RecordedPercent.




(** ** Giving up on reconnect *)




(** ** Startup *)

Section Startup.

Variable py_str : json -> string.
Variable cfg : config.





Lemma main_loop_polling (args_mode : mode) (cycles : nat) :
  forall (st : locals) (w : world) (s : status),
    result_of (main_loop py_str args_mode cfg cycles st w) = Ret s ->
    exists st', s = Polling st'.
Proof.
  induction cycles as [| n IH]; intros st w s; cbn [main_loop].
  - intros [= <-]. now exists st.
  - intros R. apply bind_result in R. destruct R as (st1 & w1 & t1 & _ & R).
    exact (IH st1 w1 s R).
Qed.


End Startup.




(** ** The device after a reconnect *)

(** C7 fails on the code. After a successful reconnect caused by
    [ACCSESSEXC] or by an unclassified error code, the loop keeps the
    thermostat it had, although the refreshed device list holds the
    device under its new description; after a session-expired code the
    same reconnect is followed by the new lookup. *)
Theorem thermostat_not_reselected_after_forced_reconnect :
  let st := mkLocals kitchen (JInt 45) in
  let turn code := poll_cycle str_of_scalar trigger beep_on_heat st (renamed_after code) in
  find_device str_of_scalar [hall_device] (deviceId beep_on_heat) = Ret (Some hall_device)
  /\ Thermostat_init hall_device = Ret hall
  /\ result_of (turn "USRSESSEXP") = Ret (mkLocals hall (JInt 45))
  /\ result_of (turn "ACCSESSEXC") = Ret (mkLocals kitchen (JInt 45))
  /\ result_of (turn "SRVERR") = Ret (mkLocals kitchen (JInt 45))
  /\ devices (client (world_of (turn "ACCSESSEXC"))) = [hall_device]
  /\ devices (client (world_of (turn "SRVERR"))) = [hall_device].
Proof.
  intros st turn. repeat split.
Qed.

(** * Further properties of the code *)

(** ** Sequencing *)

Lemma bind_ret_l {A B} (a : A) (k : A -> M B) (w : world) : bind (ret a) k w = k a w.
Proof. unfold bind, ret. now destruct (k a w) as [[r w2] t2]. Qed.

Lemma bind_silent {A B} (m : M A) (a : A) (k : A -> M B) (w : world) :
  m w = (Ret a, w, []) -> bind m k w = k a w.
Proof. intros H. unfold bind. rewrite H. now destruct (k a w) as [[r w2] t2]. Qed.

Lemma bind_assoc {A B C} (m : M A) (f : A -> M B) (g : B -> M C) (w : world) :
  bind (bind m f) g w = bind m (fun x => bind (f x) g) w.
Proof.
  unfold bind. destruct (m w) as [[[a | e] w1] t1]; [| reflexivity].
  destruct (f a w1) as [[[b | e] w2] t2]; [| reflexivity].
  destruct (g b w2) as [[r w3] t3]. now rewrite app_assoc.
Qed.

Lemma bind_ext {A B} (m : M A) (k1 k2 : A -> M B) (w : world) :
  (forall a w1, k1 a w1 = k2 a w1) -> bind m k1 w = bind m k2 w.
Proof.
  intros H. unfold bind. destruct (m w) as [[[a | e] w1] t1]; [| reflexivity].
  now rewrite H.
Qed.

Lemma bind_ret_r (m : M unit) (w : world) : bind m (fun _ => ret tt) w = m w.
Proof.
  unfold bind, ret. destruct (m w) as [[[[] | e] w1] t1]; [| reflexivity].
  now rewrite app_nil_r.
Qed.

Lemma for_each_app {A} (l1 l2 : list A) (body : A -> M unit) (w : world) :
  for_each (l1 ++ l2) body w = bind (for_each l1 body) (fun _ => for_each l2 body) w.
Proof.
  revert w. induction l1 as [| x l1 IH]; intros w; cbn [for_each app].
  - exact (eq_sym (bind_ret_l tt (fun _ => for_each l2 body) w)).
  - rewrite bind_assoc. apply bind_ext. intros _ w1. apply IH.
Qed.

(** ** Action lists *)

Lemma execute_action_list_for_each (l : list json) (w : world) :
  _execute_action_list (JArr l) w = for_each l run_item w.
Proof.
  destruct l as [| x l]; [reflexivity |].
  unfold _execute_action_list. cbn [truthy negb].
  now rewrite (bind_silent _ (x :: l) _ _ eq_refl).
Qed.

(** X1. Running a list of actions made of two parts is running the first
    part and then, unless it raised, the second. *)
Theorem execute_action_list_app (l1 l2 : list json) (w : world) :
  _execute_action_list (JArr (l1 ++ l2)) w
  = bind (_execute_action_list (JArr l1)) (fun _ => _execute_action_list (JArr l2)) w.
Proof.
  rewrite execute_action_list_for_each, for_each_app.
  unfold bind. rewrite <- execute_action_list_for_each.
  destruct (_execute_action_list (JArr l1) w) as [[[[] | e] w1] t1]; [| reflexivity].
  now rewrite execute_action_list_for_each.
Qed.

Lemma execute_disabled (item : json) (w : world) :
  disabled_action item = true -> run_item item w = (Ret tt, w, []).
Proof.
  unfold disabled_action, run_item. intros H. apply andb_prop in H. destruct H as [P E].
  apply negb_true_iff in P. rewrite P.
  destruct item as [| | | | | | kvs]; try discriminate.
  unfold execute, bind, lift, py_get. rewrite E. reflexivity.
Qed.

(** X2. The sequential actions of a list whose [enabled] is falsy can be
    taken out of the list: what the list does is the same, event for
    event. Their conditions are not even checked. *)
Theorem disabled_actions_as_absent (l : list json) (w : world) :
  _execute_action_list (JArr l) w
  = _execute_action_list (JArr (filter (fun item => negb (disabled_action item)) l)) w.
Proof.
  rewrite !execute_action_list_for_each. revert w.
  induction l as [| x l IH]; intros w; [reflexivity |].
  cbn [filter]. destruct (disabled_action x) eqn:D; cbn [negb for_each].
  - rewrite (bind_silent _ tt _ _ (execute_disabled x w D)). apply IH.
  - apply bind_ext. intros _ w1. apply IH.
Qed.

(** X3. The [enabled] flag of a parallel block is not looked at: the block
    runs the same whatever the flag says. *)
Theorem parallel_block_ignores_enabled (kvs : list (string * json)) (flag : json)
        (w : world) :
  is_parallel (JObj kvs) = true ->
  _execute_action_list (JArr [JObj (("enabled", flag) :: kvs)]) w
  = _execute_action_list (JArr [JObj kvs]) w.
Proof.
  intros P. rewrite !execute_action_list_for_each. cbn [for_each].
  unfold run_item. rewrite P.
  replace (is_parallel (JObj (("enabled", flag) :: kvs))) with true by (symmetry; exact P).
  reflexivity.
Qed.

(** ** Conditions *)

Lemma check_ping_run (kvs : list (string * json)) (w : world) :
  exists r w' t,
    _check_ping (JObj kvs) w = (r, w', t)
    /\ match r with
       | Ret b => b = ping_passes kvs w
       | Raise _ => ping_passes kvs w = false
       end
    /\ forallb is_probe t = true
    /\ (length t <= 1)%nat
    /\ (match t with [] => false | _ => true end
        = os_nt w || divisible (dict_get_or kvs "timeout" (JInt 100))).
Proof.
  unfold _check_ping, bind, lift, py_get, get_os_nt, subprocess_run, ping_passes, divisible.
  destruct (os_nt w); cbn;
    [| destruct (py_div_1000 (dict_get_or kvs "timeout" (JInt 100))) as [sec | e]; cbn ];
    try (destruct (subprocess w (clock w)) as [code |]; cbn;
         [destruct (code =? 0); cbn |]);
    do 3 eexists; (split; [reflexivity |]); cbn; repeat split; lia.
Qed.

(** X4. A [ping] condition passes exactly when the [ping] process is run
    and ends with return code 0. On Windows the process is always run;
    elsewhere a timeout that cannot be divided by 1000.0 (a string, a
    list, a dict, null, or an integer too large to be converted to a
    float) makes the check answer false with no process run. The
    check runs at most one process, and nothing else. *)
Theorem check_ping_passes_iff (kvs : list (string * json)) (w : world) :
  truthy (JObj kvs) = true ->
  py_eq_str (dict_get_or kvs "type" JNull) "ping" = true ->
  let timeout_ms := dict_get_or kvs "timeout" (JInt 100) in
  (exists w' t,
      check (JObj kvs) w = (Ret (ping_passes kvs w), w', t)
      /\ forallb is_probe t = true
      /\ (length t <= 1)%nat
      /\ (match t with [] => false | _ => true end = os_nt w || divisible timeout_ms))
  /\ divisible timeout_ms
     = match timeout_ms with
       | JInt z => negb (float_overflows z)
       | JFloat _ | JBool _ => true
       | _ => false
       end.
Proof.
  intros T K timeout_ms. split.
  - unfold check. rewrite T. cbn [negb].
    unfold bind, lift, py_get, try_catch. rewrite K.
    destruct (check_ping_run kvs w) as (r & w' & t & E & R & P & L & N).
    rewrite E. destruct r as [b | e]; cbn.
    + subst b. exists w', t. repeat split; assumption.
    + rewrite R. exists w', t. rewrite app_nil_r. repeat split; assumption.
  - unfold divisible, py_div_1000. destruct timeout_ms as [| b | z | q | s | l | d];
      try reflexivity. now destruct (float_overflows z).
Qed.

Lemma check_ping_passes_iff_witness :
  let posix := mkWorld 0 (fun _ => None) (fun _ => Some 0) (fun _ => true) false
                       (mkClient JNull []) in
  let windows := mkWorld 0 (fun _ => None) (fun _ => Some 0) (fun _ => true) true
                         (mkClient JNull []) in
  let c := [("type", JStr "ping"); ("host", JStr "10.0.0.2"); ("timeout", JStr "100")] in
  let forever :=
    [("type", JStr "ping"); ("host", JStr "10.0.0.2"); ("timeout", JInt (10 ^ 400))] in
  result_of (check (JObj c) posix) = Ret false
  /\ events_of (check (JObj c) posix) = []
  /\ result_of (check (JObj c) windows) = Ret true
  /\ check (JObj forever) posix = (Ret false, posix, []).
Proof.
  intros posix windows c forever.
  destruct (check_ping_passes_iff c posix eq_refl eq_refl) as [(w1 & t1 & E1 & _) _].
  destruct (check_ping_passes_iff c windows eq_refl eq_refl) as [(w2 & t2 & E2 & _) _].
  destruct (check_ping_passes_iff forever posix eq_refl eq_refl) as [(w3 & t3 & E3 & _) _].
  rewrite E2. repeat split.
Defined.

(** The events of a check are runs of [ping], at most one. *)
Lemma check_events (c : json) (w : world) :
  forallb is_probe (events_of (check c w)) = true
  /\ (length (events_of (check c w)) <= 1)%nat.
Proof.
  unfold check. destruct (truthy c) eqn:T; cbn [negb]; [| split; [reflexivity | cbn; lia]].
  destruct c as [| | | | | | kvs]; try (split; [reflexivity | cbn; lia]).
  unfold bind, lift, py_get, try_catch.
  destruct (py_eq_str (dict_get_or kvs "type" JNull) "ping").
  - destruct (check_ping_run kvs w) as (r & w' & t & E & _ & P & L & _).
    rewrite E. destruct r; cbn; rewrite ?app_nil_r; now split.
  - split; [reflexivity | cbn; lia].
Qed.

(** ** Gated and disabled actions *)

(** X5. An enabled action whose condition does not pass does nothing of its
    own: the only events are those of the check, that is at most one
    run of [ping]; no key is pressed, no command run, no pause made.
    A condition whose evaluation raised is one that does not pass. *)
Theorem execute_gated (kvs : list (string * json)) (w w' : world) (t : list event) :
  truthy (dict_get_or kvs "enabled" (JBool true)) = true ->
  truthy (dict_get_or kvs "condition" JNull) = true ->
  check (dict_get_or kvs "condition" JNull) w = (Ret false, w', t) ->
  execute (JObj kvs) w = (Ret tt, w', t)
  /\ forallb is_probe t = true
  /\ (length t <= 1)%nat.
Proof.
  intros E C K. split.
  - unfold execute, bind, lift, py_get. rewrite E, C. cbn [negb].
    unfold bind. rewrite K. cbn. now rewrite !app_nil_r.
  - pose proof (check_events (dict_get_or kvs "condition" JNull) w) as H.
    rewrite K in H. exact H.
Qed.

Lemma execute_gated_witness :
  execute press_a_twice (steady_world None (Some 1) true false)
  = (Ret tt, tick (steady_world None (Some 1) true false),
     [ERun (Ping_posix (JInt 1) (JFloat (inject_Z 100 / 1000)%Q) (JStr "127.0.0.1"))]).
Proof.
  apply (proj1 (execute_gated
                  [("action_type", JStr "keyboard"); ("key", JStr "a"); ("repeat", JInt 2);
                   ("condition", ping_localhost)]
                  (steady_world None (Some 1) true false) _ _
                  eq_refl eq_refl eq_refl)).
Defined.

(** ** Repeated actions *)

Lemma repeat_with_delay_S (r : nat) (body : M unit) (w : world) :
  repeat_with_delay (S r) body w
  = bind body
         (fun _ => bind (match r with
                         | O => ret tt
                         | S _ => time_sleep REPEAT_DELAY_IN_SECONDS
                         end)
                        (fun _ => repeat_with_delay r body)) w.
Proof. reflexivity. Qed.

Lemma sleep_repeat_delay (w : world) :
  time_sleep REPEAT_DELAY_IN_SECONDS w = (Ret tt, w, [ESleep REPEAT_DELAY_IN_SECONDS]).
Proof. reflexivity. Qed.

Lemma repeat_with_delay_ok (body : M unit) (e : event) (P : nat -> world -> Prop) :
  (forall i w, P (S i) w -> body w = (Ret tt, tick w, [e]) /\ P i (tick w)) ->
  forall n w, P n w -> repeat_with_delay n body w = (Ret tt, ticks n w, spaced e n).
Proof.
  intros step. induction n as [| n IH]; intros w H; [reflexivity |].
  destruct (step n w H) as [B H']. rewrite repeat_with_delay_S.
  unfold bind. rewrite B.
  destruct n as [| n']; [reflexivity |].
  cbv beta iota. rewrite sleep_repeat_delay. cbv beta iota.
  rewrite (IH (tick w) H'). reflexivity.
Qed.

Lemma repeat_with_delay_fails (body : M unit) (e : event) (err : exn)
      (F : nat -> world -> Prop) :
  (forall w, F O w -> body w = (Raise err, tick w, [e])) ->
  (forall j w, F (S j) w -> body w = (Ret tt, tick w, [e]) /\ F j (tick w)) ->
  forall j n w,
    (j < n)%nat -> F j w ->
    repeat_with_delay n body w = (Raise err, ticks (S j) w, spaced e (S j)).
Proof.
  intros stop step. induction j as [| j IH]; intros n w L H.
  - destruct n as [| n]; [lia |]. rewrite repeat_with_delay_S. unfold bind.
    now rewrite (stop w H).
  - destruct n as [| n]; [lia |]. destruct (step j w H) as [B H'].
    rewrite repeat_with_delay_S. unfold bind. rewrite B.
    destruct n as [| n']; [lia |].
    cbv beta iota. rewrite sleep_repeat_delay. cbv beta iota.
    rewrite (IH (S n') (tick w) ltac:(lia) H'). reflexivity.
Qed.

Lemma keys_go_through_step (i : nat) (w : world) (key : json) :
  keys_go_through (S i) w ->
  press_and_release key w = (Ret tt, tick w, [EKey key]) /\ keys_go_through i (tick w).
Proof.
  intros H. split.
  - unfold press_and_release. specialize (H 0%nat ltac:(lia)).
    rewrite Nat.add_0_r in H. now rewrite H.
  - intros k L. specialize (H (S k) ltac:(lia)). cbn.
    now rewrite Nat.add_succ_r in H.
Qed.

Lemma processes_run_step (i : nat) (w : world) (cmd : command) :
  processes_run (S i) w ->
  (subprocess_run cmd ;; ret tt) w = (Ret tt, tick w, [ERun cmd])
  /\ processes_run i (tick w).
Proof.
  intros H. split.
  - unfold bind, subprocess_run, ret. specialize (H 0%nat ltac:(lia)).
    rewrite Nat.add_0_r in H. now destruct (subprocess w (clock w)).
  - intros k L. specialize (H (S k) ltac:(lia)). cbn.
    now rewrite Nat.add_succ_r in H.
Qed.

(** X6. A keyboard action with repeat [n] whose presses all go through
    presses the key [n] times, with the repeat delay between two
    presses and none after the last. *)
Theorem keyboard_action_repeats (kvs : list (string * json)) (n : nat) (w : world) :
  plain_action kvs "keyboard" ->
  dict_get_or kvs "repeat" (JInt 1) = JInt (Z.of_nat n) ->
  keys_go_through n w ->
  execute (JObj kvs) w
  = (Ret tt, ticks n w, spaced (EKey (dict_get_or kvs "key" JNull)) n).
Proof.
  intros (E & C & A) R K.
  unfold execute, bind, lift, py_get. rewrite E, C, A. cbn.
  unfold _execute_keyboard, bind, lift, py_get. rewrite R. cbn [py_range].
  rewrite Nat2Z.id. unfold try_catch.
  rewrite (repeat_with_delay_ok (press_and_release (dict_get_or kvs "key" JNull))
             (EKey (dict_get_or kvs "key" JNull)) keys_go_through
             (fun i w0 => keys_go_through_step i w0 _) n w K).
  reflexivity.
Qed.

Lemma keyboard_action_repeats_witness :
  execute (JObj press_f9_thrice) offline
  = (Ret tt, ticks 3 offline,
     [EKey (JStr "f9"); ESleep REPEAT_DELAY_IN_SECONDS;
      EKey (JStr "f9"); ESleep REPEAT_DELAY_IN_SECONDS;
      EKey (JStr "f9")]).
Proof.
  apply (keyboard_action_repeats press_f9_thrice 3 offline).
  - repeat split.
  - reflexivity.
  - intros i _. reflexivity.
Defined.

(** X7. When a key press fails, the presses still to come are given up and
    the failure goes no further: the action ends without an exception
    after the press that failed. *)
Theorem keyboard_action_stops_at_failure (kvs : list (string * json)) (n j : nat)
        (w : world) :
  plain_action kvs "keyboard" ->
  dict_get_or kvs "repeat" (JInt 1) = JInt (Z.of_nat n) ->
  (j < n)%nat ->
  keys_go_through j w ->
  keyboard w (clock w + j) = false ->
  execute (JObj kvs) w
  = (Ret tt, ticks (S j) w, spaced (EKey (dict_get_or kvs "key" JNull)) (S j)).
Proof.
  intros (E & C & A) R L K Fj.
  unfold execute, bind, lift, py_get. rewrite E, C, A. cbn.
  unfold _execute_keyboard, bind, lift, py_get. rewrite R. cbn [py_range].
  rewrite Nat2Z.id. unfold try_catch.
  rewrite (repeat_with_delay_fails
             (press_and_release (dict_get_or kvs "key" JNull))
             (EKey (dict_get_or kvs "key" JNull)) CollaboratorError
             (fun i w0 => keys_go_through i w0 /\ keyboard w0 (clock w0 + i) = false))
    with (j := j).
  - cbn. now rewrite app_nil_r.
  - intros w0 [_ H]. unfold press_and_release. rewrite Nat.add_0_r in H. now rewrite H.
  - intros i w0 [H1 H2]. destruct (keys_go_through_step i w0 (dict_get_or kvs "key" JNull)) as [B H'].
    + intros k Lk. apply H1. lia.
    + split; [exact B |]. split.
      * intros k Lk. specialize (H1 (S k) ltac:(lia)). cbn.
        now rewrite Nat.add_succ_r in H1.
      * cbn. now rewrite Nat.add_succ_r in H2.
  - exact L.
  - now split.
Qed.

Lemma keyboard_action_stops_at_failure_witness :
  execute (JObj press_f9_thrice) second_key_fails
  = (Ret tt, ticks 2 second_key_fails,
     [EKey (JStr "f9"); ESleep REPEAT_DELAY_IN_SECONDS; EKey (JStr "f9")]).
Proof.
  apply (keyboard_action_stops_at_failure press_f9_thrice 3 1 second_key_fails).
  - repeat split.
  - reflexivity.
  - lia.
  - intros i L. destruct i as [| i]; [reflexivity | lia].
  - reflexivity.
Defined.

(** X8. A command action with repeat [n] runs the command [n] times, with
    the repeat delay between two runs and none after the last,
    whatever the return codes are: a run that ends with an error code
    does not stop the repeats. *)
Theorem command_action_repeats (kvs : list (string * json)) (n : nat) (w : world) :
  plain_action kvs "command" ->
  dict_get_or kvs "repeat" (JInt 1) = JInt (Z.of_nat n) ->
  processes_run n w ->
  execute (JObj kvs) w
  = (Ret tt, ticks n w, spaced (ERun (Shell (dict_get_or kvs "command" JNull))) n).
Proof.
  intros (E & C & A) R K.
  unfold execute, bind, lift, py_get. rewrite E, C, A. cbn.
  unfold _execute_command, bind, lift, py_get. rewrite R. cbn [py_range].
  rewrite Nat2Z.id. unfold try_catch.
  pose proof (repeat_with_delay_ok
                (subprocess_run (Shell (dict_get_or kvs "command" JNull)) ;; ret tt)
                (ERun (Shell (dict_get_or kvs "command" JNull))) processes_run
                (fun i w0 => processes_run_step i w0 _) n w K) as H.
  unfold bind in H. rewrite H. reflexivity.
Qed.

Lemma command_action_repeats_witness :
  execute (JObj run_backup_twice) failing_commands
  = (Ret tt, ticks 2 failing_commands,
     [ERun (Shell (JStr "backup.sh")); ESleep REPEAT_DELAY_IN_SECONDS;
      ERun (Shell (JStr "backup.sh"))]).
Proof.
  apply (command_action_repeats run_backup_twice 2 failing_commands).
  - repeat split.
  - reflexivity.
  - intros i _. discriminate.
Defined.

(** X9. A keyboard or command action whose repeat is below 1, is [False]
    or is not an integer (a float such as 2.0, a string, null) does
    nothing at all, and raises nothing. *)
Theorem action_without_repeat (kvs : list (string * json)) (w : world) :
  plain_action kvs "keyboard" \/ plain_action kvs "command" ->
  no_repeat (dict_get_or kvs "repeat" (JInt 1)) = true ->
  execute (JObj kvs) w = (Ret tt, w, []).
Proof.
  intros [(E & C & A) | (E & C & A)] R;
    unfold execute, bind, lift, py_get; rewrite E, C, A; cbn;
    unfold _execute_keyboard, _execute_command, try_catch, bind, lift, py_get;
    unfold no_repeat in R;
    destruct (py_range (dict_get_or kvs "repeat" (JInt 1))) as [[| n] | e];
    try discriminate; reflexivity.
Qed.

Lemma action_without_repeat_witness :
  execute (JObj [("action_type", JStr "keyboard"); ("key", JStr "f9");
                 ("repeat", JFloat (2 # 1))]) offline
  = (Ret tt, offline, [])
  /\ execute (JObj [("action_type", JStr "command"); ("command", JStr "backup.sh");
                    ("repeat", JInt 0)]) offline
     = (Ret tt, offline, []).
Proof.
  split.
  - apply action_without_repeat; [left; repeat split | reflexivity].
  - apply action_without_repeat; [right; repeat split | reflexivity].
Defined.



(** ** Parallel blocks and triggers *)

Lemma threads_run (l : list json) :
  forall w,
  exists w' t,
    for_each l (fun action => thread (execute action)) w = (Ret tt, w', t)
    /\ one_thread_each l w t w'
    /\ length t = length l
    /\ forallb is_thread t = true.
Proof.
  induction l as [| x l IH]; intros w.
  - exists w, []. repeat split. constructor.
  - cbn [for_each]. unfold bind. unfold thread at 1.
    destruct (IH (world_of (execute x w))) as (w2 & t2 & E & O & L & T).
    pose proof (next_child x l w w2 t2 O) as O'.
    destruct (execute x w) as [[r w1] t1]. cbn [world_of events_of fst snd] in *.
    cbv beta iota. rewrite E.
    exists w2, ([ECall Cthread t1] ++ t2). split; [reflexivity |]. split; [exact O' |].
    split.
    + cbn. now rewrite L.
    + cbn. exact T.
Qed.

Lemma one_thread_each_nth (l : list json) (w w' : world) (t : list event) :
  one_thread_each l w t w' ->
  forall i child,
    nth_error l i = Some child ->
    exists wi, nth_error t i = Some (ECall Cthread (events_of (execute child wi))).
Proof.
  induction 1 as [w | c rest w w' t O IH]; intros i child N.
  - now destruct i.
  - destruct i as [| i]; cbn in N.
    + injection N as ->. now exists w.
    + exact (IH i child N).
Qed.

(** X11. A parallel block whose [actions] is a list starts one thread per
    child, in the order of the list: the i-th thread runs [execute] on
    the i-th child, from the world that the threads started before it
    have left. The block ends without an exception whatever the
    children are and do: a child that is not a dict or whose action
    fails ends its own thread only. *)
Theorem parallel_block_one_thread_per_child (kvs : list (string * json))
        (children : list json) (w : world) :
  dict_get_or kvs "actions" (JArr []) = JArr children ->
  exists w' t,
    _execute_parallel_block (JObj kvs) w = (Ret tt, w', t)
    /\ one_thread_each children w t w'
    /\ (forall i child,
           nth_error children i = Some child ->
           exists wi, nth_error t i = Some (ECall Cthread (events_of (execute child wi))))
    /\ length t = length children
    /\ forallb is_thread t = true.
Proof.
  intros A. unfold _execute_parallel_block, bind, lift, py_get. rewrite A. cbn.
  destruct (threads_run children w) as (w' & t & E & O & L & T). rewrite E.
  exists w', t. repeat split; try assumption.
  exact (one_thread_each_nth children w w' t O).
Qed.

Lemma parallel_block_one_thread_per_child_witness :
  (exists w' t,
      _execute_parallel_block
        (JObj [("action_type", JStr "parallel");
               ("actions", JArr [JObj press_f9_thrice; JStr "beep"; JObj run_backup_twice])])
        second_key_fails
      = (Ret tt, w', t)
      /\ one_thread_each [JObj press_f9_thrice; JStr "beep"; JObj run_backup_twice]
                         second_key_fails t w'
      /\ length t = 3%nat)
  /\ events_of (_execute_parallel_block
                  (JObj [("action_type", JStr "parallel");
                         ("actions",
                          JArr [JObj press_f9_thrice; JStr "beep"; JObj run_backup_twice])])
                  second_key_fails)
     = [ECall Cthread [EKey (JStr "f9"); ESleep REPEAT_DELAY_IN_SECONDS; EKey (JStr "f9")];
        ECall Cthread [];
        ECall Cthread [ERun (Shell (JStr "backup.sh")); ESleep REPEAT_DELAY_IN_SECONDS;
                       ERun (Shell (JStr "backup.sh"))]].
Proof.
  split; [| reflexivity].
  destruct (parallel_block_one_thread_per_child
              [("action_type", JStr "parallel");
               ("actions", JArr [JObj press_f9_thrice; JStr "beep"; JObj run_backup_twice])]
              [JObj press_f9_thrice; JStr "beep"; JObj run_backup_twice]
              second_key_fails eq_refl) as (w' & t & E & O & _ & L & _).
  exists w', t. repeat split; assumption.
Defined.

Lemma parallel_block_returns (kvs : list (string * json)) (w : world) :
  match dict_get_or kvs "actions" (JArr []) with
  | JArr _ | JObj _ | JStr _ => true
  | _ => false
  end = true ->
  returns (_execute_parallel_block (JObj kvs) w).
Proof.
  intros A. unfold _execute_parallel_block, bind, lift, py_get.
  destruct (dict_get_or kvs "actions" (JArr [])) as [| | | | s | l | d];
    try discriminate; cbn.
  - destruct (threads_run (chars s) w) as (w' & t & E & _). rewrite E. apply returns_Ret.
  - destruct (threads_run l w) as (w' & t & E & _). rewrite E. apply returns_Ret.
  - destruct (threads_run (map (fun kv => JStr (fst kv)) d) w) as (w' & t & E & _).
    rewrite E. apply returns_Ret.
Qed.

Lemma run_items_return (l : list json) :
  forallb well_formed_item l = true ->
  forall w, returns (for_each l run_item w).
Proof.
  induction l as [| x l IH]; intros W w; [apply returns_Ret |].
  cbn in W. apply andb_prop in W. destruct W as [Wx Wl].
  cbn [for_each]. apply bind_returns; [| intros _ w1; now apply IH].
  unfold run_item. unfold well_formed_item in Wx.
  destruct x as [| | | | | | kvs]; try discriminate.
  destruct (is_parallel (JObj kvs)).
  - now apply parallel_block_returns.
  - apply execute_returns. apply orb_prop in Wx. destruct Wx as [H | H].
    + left. now apply negb_true_iff.
    + now right.
Qed.

(** X12. A trigger that the configuration does not name does nothing. A
    trigger whose actions are well formed (each item a dict that is
    either a parallel block whose [actions] has a length, or an action
    whose condition is absent, falsy or a dict) runs to its end
    without an exception, whatever the keyboard, the processes and the
    probes do. *)
Theorem execute_trigger_well_formed (triggers : list (string * json))
        (trigger_name : string) (w : world) :
  (dict_get triggers trigger_name = None ->
   execute_trigger (JObj triggers) trigger_name w = (Ret tt, w, []))
  /\ (forall actions,
         dict_get triggers trigger_name = Some (JArr actions) ->
         forallb well_formed_item actions = true ->
         returns (execute_trigger (JObj triggers) trigger_name w)).
Proof.
  split.
  - intros H. unfold execute_trigger, bind, lift, py_contains. now rewrite H.
  - intros actions H W. unfold execute_trigger, bind, lift, py_contains, py_getitem.
    rewrite H. cbn [negb].
    pose proof (run_items_return actions W w) as [u R].
    rewrite <- execute_action_list_for_each in R.
    destruct (_execute_action_list (JArr actions) w) as [[r w1] t1].
    cbn in R. subst r. apply returns_Ret.
Qed.

Lemma execute_trigger_well_formed_witness :
  execute_trigger (triggers_config pause_on_heat) "on_door_open" offline = (Ret tt, offline, [])
  /\ returns (execute_trigger (triggers_config pause_on_heat) "on_heater_on" offline).
Proof.
  pose proof (execute_trigger_well_formed
                [("on_heater_on",
                  JArr [JObj [("action_type", JStr "sleep"); ("seconds", JInt 1)]]);
                 ("on_heater_off",
                  JArr [JObj [("action_type", JStr "sleep"); ("seconds", JInt 2)]])])
    as H.
  split.
  - apply (proj1 (H "on_door_open" offline)). reflexivity.
  - apply (proj2 (H "on_heater_on" offline)
             [JObj [("action_type", JStr "sleep"); ("seconds", JInt 1)]]); reflexivity.
Defined.

(** ** The client *)

Lemma disconnect_outcome (w : world) :
  exists w',
    disconnect w
    = (Ret tt, w', if truthy (session_id (client w)) then [ERequest LOGOUT_URL] else [])
    /\ truthy (session_id (client w')) = false
    /\ devices (client w') = devices (client w).
Proof.
  unfold disconnect, bind, get_client, try_catch, request, set_session_id.
  destruct (truthy (session_id (client w))) eqn:T; cbn.
  - destruct (http w (clock w)); cbn; eexists; repeat split.
  - exists w. repeat split. exact T.
Qed.

(** X13. [disconnect] never raises, even when the logout request fails; it
    posts the logout exactly when a session is held, leaves the client
    without a session and with its device list, and a second
    [disconnect] right after it does nothing at all. *)
Theorem disconnect_releases_once (w : world) :
  exists w',
    disconnect w
    = (Ret tt, w', if truthy (session_id (client w)) then [ERequest LOGOUT_URL] else [])
    /\ truthy (session_id (client w')) = false
    /\ devices (client w') = devices (client w)
    /\ disconnect w' = (Ret tt, w', []).
Proof.
  destruct (disconnect_outcome w) as (w' & E & S & D).
  exists w'. repeat split; try assumption.
  unfold disconnect, bind, get_client. now rewrite S.
Qed.

Lemma log_devices_run (l : list json) (w : world) :
  for_each l (fun dev => _ <- lift (py_get dev "name" JNull) ;; ret tt) w
  = (if forallb is_dict l then Ret tt else Raise AttributeError, w, []).
Proof.
  induction l as [| x l IH]; [reflexivity |].
  cbn [for_each forallb]. unfold bind at 1.
  destruct x; cbn; try reflexivity.
  rewrite IH. now destruct (forallb is_dict l).
Qed.

Lemma store_devices_run (l : list json) (w : world) :
  (set_devices l ;;
   c <- get_client ;;
   match devices c with
   | [] => ret false
   | devs =>
       for_each devs (fun dev => _ <- lift (py_get dev "name" JNull) ;; ret tt) ;;
       ret true
   end) w
  = (match l with
     | [] => Ret false
     | _ => if forallb is_dict l then Ret true else Raise AttributeError
     end,
     set_client (mkClient (session_id (client w)) l) w, []).
Proof.
  destruct l as [| d l]; [reflexivity |].
  unfold bind at 1. unfold set_devices at 1. cbv beta iota.
  unfold bind at 1. unfold get_client at 1. cbv beta iota.
  cbn [client set_client devices].
  unfold bind at 1. rewrite log_devices_run.
  destruct (forallb is_dict (d :: l)); reflexivity.
Qed.

Lemma get_devices_run (w : world) :
  get_devices w
  = match http w (clock w) with
    | None => (Ret false, tick w, [ERequest DEVICE_LIST_URL])
    | Some data =>
        if has_key data "error"
        then (Ret false, tick w, [ERequest DEVICE_LIST_URL])
        else
          let l := match data with JArr l => l | _ => [] end in
          (match l with
           | [] => Ret false
           | _ => if forallb is_dict l then Ret true else Raise AttributeError
           end,
           set_client (mkClient (session_id (client w)) l) (tick w),
           [ERequest DEVICE_LIST_URL])
    end.
Proof.
  unfold get_devices. unfold bind at 1.
  unfold request_or_none, try_catch, bind at 1, request.
  destruct (http w (clock w)) as [data |]; [| reflexivity].
  cbv beta iota. unfold ret at 1. cbv beta iota.
  destruct (has_key data "error"); [reflexivity |].
  rewrite store_devices_run. reflexivity.
Qed.

(** X14. [get_devices] makes one request. It answers true exactly when the
    reply is a non-empty list of dicts, which is then the device list
    of the client. A failed request or an error object leaves the
    client as it was; any other reply that is not a non-empty list
    empties the device list. The session id is never touched. *)
Theorem get_devices_outcome (w : world) :
  events_of (get_devices w) = [ERequest DEVICE_LIST_URL]
  /\ session_id (client (world_of (get_devices w))) = session_id (client w)
  /\ (result_of (get_devices w) = Ret true <->
      exists l, http w (clock w) = Some (JArr l) /\ l <> [] /\ forallb is_dict l = true)
  /\ (result_of (get_devices w) = Ret true ->
      http w (clock w) = Some (JArr (devices (client (world_of (get_devices w))))))
  /\ (http w (clock w) = None
      \/ (exists data, http w (clock w) = Some data /\ has_key data "error" = true) ->
      result_of (get_devices w) = Ret false
      /\ client (world_of (get_devices w)) = client w)
  /\ (forall data,
         http w (clock w) = Some data -> has_key data "error" = false ->
         (forall l, data = JArr l -> l = []) ->
         result_of (get_devices w) = Ret false
         /\ devices (client (world_of (get_devices w))) = []).
Proof.
  rewrite get_devices_run.
  destruct (http w (clock w)) as [data |] eqn:H;
    [destruct (has_key data "error") eqn:K |]; cbn zeta;
    (split; [reflexivity |]); (split; [reflexivity |]);
    (split; [| split; [| split]]).
  - split; [discriminate |]. intros (l & [= ->] & _). discriminate.
  - discriminate.
  - intros _. split; reflexivity.
  - intros data' [= <-] K'. congruence.
  - split.
    + destruct data as [| | | | | l |]; try discriminate.
      destruct l as [| d l]; [discriminate |].
      destruct (forallb is_dict (d :: l)) eqn:F; [| discriminate].
      intros _. exists (d :: l). repeat split; [discriminate | exact F].
    + intros (l & [= ->] & N & F). destruct l; [contradiction |].
      cbn [result_of fst]. now rewrite F.
  - destruct data as [| | | | | l |]; try discriminate.
    destruct l as [| d l]; [discriminate |]. reflexivity.
  - intros [[=] | (data' & [= <-] & K')]. congruence.
  - intros data' [= <-] _ N.
    destruct data as [| | | | | l |]; try (split; reflexivity).
    rewrite (N l eq_refl). split; reflexivity.
  - split; [discriminate |]. intros (l & [=] & _).
  - discriminate.
  - intros _. split; reflexivity.
  - intros data [=].
Qed.

Lemma get_devices_true (w w' : world) (t : list event) :
  get_devices w = (Ret true, w', t) ->
  devices (client w') <> [] /\ forallb is_dict (devices (client w')) = true.
Proof.
  rewrite get_devices_run.
  destruct (http w (clock w)) as [data |]; [| discriminate].
  destruct (has_key data "error"); [discriminate |]. cbn zeta.
  destruct (match data with JArr l => l | _ => [] end) as [| d l]; [discriminate |].
  destruct (forallb is_dict (d :: l)) eqn:F; [| discriminate].
  intros [= <- _]. cbn [client set_client devices]. split; [discriminate | exact F].
Qed.

Lemma login_single_request (w : world) :
  match http w (clock w) with
  | Some first => accsessexc_error first = false
  | None => True
  end ->
  events_of (login w) = [ERequest LOGIN_URL].
Proof.
  unfold login, request_or_none, try_catch, bind at 1, bind at 1, request.
  destruct (http w (clock w)) as [first |]; [| reflexivity].
  unfold accsessexc_error. cbv beta iota. unfold ret at 1. cbv beta iota.
  destruct (has_key first "session") eqn:S.
  - intros _. destruct first as [| | | | | | kvs]; try discriminate.
    cbn in S. unfold bind, lift, py_getitem, set_session_id.
    destruct (dict_get kvs "session") as [s |]; [| discriminate].
    destruct s; reflexivity.
  - cbn [negb andb]. destruct first as [| | | | | | kvs]; try reflexivity.
    unfold bind at 1. unfold bind at 1. unfold lift at 1, py_get.
    destruct (dict_get_or kvs "error" (JObj [])) as [| | | | | | e]; try reflexivity.
    intros E. cbv beta iota. unfold ret at 1. cbv beta iota. rewrite E. reflexivity.
Qed.

(** X15. [login] posts the login request twice when the first reply is an
    [ACCSESSEXC] error object, and once in every other case: it never
    makes a third attempt and never retries on another error. *)
Theorem login_requests_count (w : world) :
  login_requests (events_of (login w))
  = match http w (clock w) with
    | Some first => if accsessexc_error first then 2%nat else 1%nat
    | None => 1%nat
    end.
Proof.
  destruct (http w (clock w)) as [first |] eqn:H.
  - destruct (accsessexc_error first) eqn:A.
    + destruct (login_retry_run w first H A) as [w' R]. rewrite R.
      cbn [events_of snd]. now destruct (http w (S (clock w))).
    + rewrite login_single_request; [reflexivity |]. now rewrite H.
  - rewrite login_single_request; [reflexivity |]. now rewrite H.
Qed.

(** X16. A [login] that answers false leaves the client as it was. One that
    answers true has stored the [session] of a reply to one of its
    login requests, and has not touched the device list. *)
Theorem login_stores_session (w w' : world) (b : bool) (t : list event) :
  login w = (Ret b, w', t) ->
  devices (client w') = devices (client w)
  /\ (b = false -> session_id (client w') = session_id (client w))
  /\ (b = true ->
      exists n kvs,
        (n = clock w \/ n = S (S (clock w)))
        /\ http w n = Some (JObj kvs)
        /\ dict_get kvs "session" = Some (session_id (client w'))).
Proof.
  destruct (http w (clock w)) as [first |] eqn:H.
  - destruct (accsessexc_error first) eqn:A.
    + destruct (login_retry_run w first H A) as [w1 R]. rewrite R.
      revert R. unfold login, request_or_none, try_catch, bind at 1, bind at 1, request.
      rewrite H. cbv beta iota. unfold ret at 1. cbv beta iota.
      unfold accsessexc_error in A. apply andb_prop in A. destruct A as [A1 A2].
      apply negb_true_iff in A1. rewrite A1.
      destruct first as [| | | | | | kvs]; try discriminate.
      destruct (dict_get_or kvs "error" (JObj [])) as [| | | | | | e] eqn:De;
        try discriminate.
      unfold bind, lift, py_get. cbn. rewrite A2. cbn.
      destruct (http w (S (clock w))) as [bye |]; cbn;
        (destruct (http w (S (S (clock w)))) as [second |] eqn:H2; cbn;
         [ destruct second as [| | | | | | kvs2]; cbn;
           try (intros [= <-] [= <- <- _]; repeat split; discriminate);
           destruct (dict_get kvs2 "session") as [s |] eqn:S2; cbn;
           intros [= <-] [= <- <- _]; repeat split; try discriminate;
           intros _; exists (S (S (clock w))), kvs2; repeat split;
           [now right | exact H2 | exact S2]
         | intros [= <-] [= <- <- _]; repeat split; discriminate ]).
    + unfold login, request_or_none, try_catch, bind at 1, bind at 1, request.
      rewrite H. cbv beta iota. unfold ret at 1. cbv beta iota.
      unfold accsessexc_error in A.
      destruct (has_key first "session") eqn:S.
      * destruct first as [| | | | | | kvs]; try discriminate.
        cbn in S. unfold bind, lift, py_getitem, set_session_id.
        destruct (dict_get kvs "session") as [s |] eqn:Ds; [| discriminate].
        destruct s; cbn; try discriminate;
          intros [= <- <- _]; repeat split; try discriminate;
          intros _; exists (clock w), kvs; repeat split; try (now left); assumption.
      * cbn [negb andb] in A. destruct first as [| | | | | | kvs];
          try (intros [= <- <- _]; repeat split; discriminate).
        unfold bind at 1. unfold bind at 1. unfold lift at 1, py_get.
        destruct (dict_get_or kvs "error" (JObj [])) as [| | | | | | e];
          try discriminate.
        cbv beta iota. unfold ret at 1. cbv beta iota. rewrite A.
        intros [= <- <- _]; repeat split; discriminate.
  - unfold login, request_or_none, try_catch, bind at 1, bind at 1, request.
    rewrite H. cbn. intros [= <- <- _]; repeat split; discriminate.
Qed.

Lemma login_stores_session_witness :
  exists w',
    result_of (login startup_world) = Ret true
    /\ w' = world_of (login startup_world)
    /\ session_id (client w') = JStr "3f9a".
Proof.
  exists (world_of (login startup_world)).
  destruct (login_stores_session startup_world (world_of (login startup_world)) true
              (events_of (login startup_world)) eq_refl) as (_ & _ & H).
  destruct (H eq_refl) as (n & kvs & _ & _ & _).
  repeat split.
Defined.

(** ** After a reconnect *)

Lemma bind_inv {A B} (m : M A) (k : A -> M B) (w w' : world) (b : B) (t : list event) :
  bind m k w = (Ret b, w', t) ->
  exists a w1 t1 t2, m w = (Ret a, w1, t1) /\ k a w1 = (Ret b, w', t2) /\ t = t1 ++ t2.
Proof.
  unfold bind. destruct (m w) as [[[a | e] w1] t1]; [| discriminate].
  destruct (k a w1) as [[r w2] t2] eqn:K. intros [= -> -> <-].
  exists a, w1, t1, t2. repeat split. exact K.
Qed.

Lemma call_inv {A} (f : callee) (m : M A) (w w' : world) (r : res A) (t : list event) :
  call f m w = (r, w', t) -> exists t0, m w = (r, w', t0) /\ t = [ECall f t0].
Proof.
  unfold call. destruct (m w) as [[r0 w0] t0]. intros [= -> -> <-]. now exists t0.
Qed.

Lemma try_catch_true (m : M bool) (h : exn -> M bool) (w w' : world) (t : list event) :
  (forall e w0, result_of (h e w0) <> Ret true) ->
  try_catch m h w = (Ret true, w', t) -> m w = (Ret true, w', t).
Proof.
  intros H. unfold try_catch. destruct (m w) as [[[a | e] w1] t1]; [trivial |].
  specialize (H e w1). destruct (h e w1) as [[r w2] t2]. cbn in H.
  intros [= -> _ _]. contradiction.
Qed.

Lemma reconnect_attempt_true (attempt base_delay : Z) (w w' : world) (t : list event) :
  reconnect_attempt attempt base_delay w = (Ret true, w', t) ->
  exists w1 t1, get_devices w1 = (Ret true, w', t1).
Proof.
  unfold reconnect_attempt. intros R. apply try_catch_true in R.
  - apply bind_inv in R. destruct R as (logged_in & w1 & t1 & t2 & _ & R & _).
    destruct logged_in; [| discriminate]. cbn [negb] in R.
    apply bind_inv in R. destruct R as (listed & w2 & t3 & t4 & G & R & _).
    destruct listed; [| discriminate]. cbn in R. injection R as <- _.
    apply call_inv in G. destruct G as (t0 & G & _). now exists w1, t0.
  - intros e w0 R'. apply bind_result in R'.
    destruct R' as (a & w1 & t1 & _ & R'). discriminate.
Qed.

Lemma reconnect_loop_true (remaining : nat) :
  forall (attempt base_delay : Z) (w w' : world) (t : list event),
    reconnect_loop remaining attempt base_delay w = (Ret true, w', t) ->
    exists w1 t1, get_devices w1 = (Ret true, w', t1).
Proof.
  induction remaining as [| r IH]; intros attempt base_delay w w' t; [discriminate |].
  cbn [reconnect_loop]. intros R. apply bind_inv in R.
  destruct R as (connected & w1 & t1 & t2 & A & R & _). destruct connected.
  - injection R as <- _. exact (reconnect_attempt_true _ _ _ _ _ A).
  - exact (IH _ _ _ _ _ R).
Qed.


(** X17. A reconnect that answers true leaves the client with a device list
    that is not empty and holds only dicts: the list of the device
    fetch of the attempt that went through. *)
Theorem reconnect_success_devices (max_attempts base_delay : Z) (w w' : world)
        (t : list event) :
  reconnect max_attempts base_delay w = (Ret true, w', t) ->
  devices (client w') <> [] /\ forallb is_dict (devices (client w')) = true.
Proof.
  unfold reconnect. intros R. apply bind_inv in R.
  destruct R as (u & w1 & t1 & t2 & _ & R & _).
  destruct (reconnect_loop_true _ _ _ _ _ _ R) as (w2 & t3 & G).
  exact (get_devices_true _ _ _ G).
Qed.

Lemma reconnect_success_devices_witness :
  devices (client (world_of (reconnect 6 5 reconnecting_world))) <> []
  /\ forallb is_dict (devices (client (world_of (reconnect 6 5 reconnecting_world)))) = true.
Proof.
  apply (reconnect_success_devices 6 5 reconnecting_world
           (world_of (reconnect 6 5 reconnecting_world))
           (events_of (reconnect 6 5 reconnecting_world)) eq_refl).
Defined.

(** ** The device lookup *)

Lemma find_device_None (py_str : json -> string) (devs : list json) (wanted : json) :
  find_device py_str devs wanted = Ret None
  <-> forallb (other_device py_str wanted) devs = true.
Proof.
  induction devs as [| d devs IH]; cbn [find_device forallb]; [tauto |].
  unfold other_device at 1, id_matches.
  destruct d as [| | | | | | kvs]; cbn; try (split; discriminate).
  destruct (String.eqb _ _); cbn; [split; discriminate | exact IH].
Qed.

(** X18. The lookup answers the first device of the list whose id, as a
    string, is the wanted one: the devices before it are dicts with
    other ids, and the devices after it are not looked at. It answers
    [None] exactly when every device is a dict with another id. *)
Theorem find_device_first_match (py_str : json -> string) (devs : list json)
        (wanted d : json) :
  (find_device py_str devs wanted = Ret (Some d) <->
   exists before after,
     devs = before ++ d :: after
     /\ forallb (other_device py_str wanted) before = true
     /\ id_matches py_str wanted d = true)
  /\ (find_device py_str devs wanted = Ret None <->
      forallb (other_device py_str wanted) devs = true).
Proof.
  split; [| apply find_device_None].
  induction devs as [| x devs IH]; cbn [find_device].
  - split; [discriminate |]. intros (pre & a & E & _). now destruct pre.
  - destruct x as [| | | | | | kvs].
    1-6: (cbn; split; [discriminate |];
          intros ([| y pre] & a & E & O & I); injection E as <- E;
          [cbn in I; discriminate | cbn in O; discriminate]).
    cbn.
    destruct (String.eqb (py_str (dict_get_or kvs "id" JNull)) (py_str wanted)) eqn:Q.
    + split.
      * intros [= <-]. exists [], devs. repeat split. cbn. exact Q.
      * intros ([| y pre] & a & E & O & I); injection E as <- E; [reflexivity |].
        cbn in O. unfold other_device at 1, id_matches in O. cbn in O.
        rewrite Q in O. discriminate.
    + rewrite IH. split.
      * intros (pre & a & -> & O & I). exists (JObj kvs :: pre), a. repeat split; [| exact I].
        cbn. unfold other_device at 1, id_matches. cbn. rewrite Q. exact O.
      * intros ([| y pre] & a & E & O & I); injection E as <- E.
        -- cbn in I. congruence.
        -- exists pre, a. repeat split; [exact E | | exact I].
           cbn in O. apply andb_prop in O. tauto.
Qed.





(** ** Bodies that are not attribute maps *)

(** X20. A reply body that is a bare number or boolean, or an error object
    whose [error] is not a dict, ends the loop on an exception
    ([TypeError], [AttributeError]) right after the poll: no reconnect
    is tried and nothing sleeps. *)
Theorem poll_cycle_dies_on_odd_body (py_str : json -> string) (args_mode : mode)
        (cfg : config) (st : locals) (w w1 : world) (info : json) (t1 : list event) :
  get_all_info (thermostat st) w = (Ret info, w1, t1) ->
  (scalar_body info = true ->
   poll_cycle py_str args_mode cfg st w = (Raise TypeError, w1, [ECall Cget_all_info t1]))
  /\ (forall kvs e,
         info = JObj kvs -> dict_get kvs "error" = Some e -> is_dict e = false ->
         poll_cycle py_str args_mode cfg st w
         = (Raise AttributeError, w1, [ECall Cget_all_info t1])).
Proof.
  intros G. split.
  - intros S. unfold poll_cycle. unfold bind at 1. unfold call at 1. rewrite G.
    destruct info; try discriminate; reflexivity.
  - intros kvs e -> E D. unfold poll_cycle. unfold bind at 1. unfold call at 1. rewrite G.
    cbn [has_key]. rewrite E. unfold bind, lift, py_getitem. rewrite E.
    destruct e; try discriminate; reflexivity.
Qed.

Lemma poll_cycle_dies_on_odd_body_witness :
  poll_cycle str_of_scalar trigger beep_on_heat (mkLocals kitchen (JInt 0)) bare_number_reply
  = (Raise TypeError, tick bare_number_reply,
     [ECall Cget_all_info [ERequest (DEVICE_DATA_URL (JInt 7))]]).
Proof.
  apply (proj1 (poll_cycle_dies_on_odd_body
                  str_of_scalar trigger beep_on_heat (mkLocals kitchen (JInt 0))
                  bare_number_reply (tick bare_number_reply) (JInt 45)
                  [ERequest (DEVICE_DATA_URL (JInt 7))] eq_refl)).
  reflexivity.
Defined.

(** A turn on any body that the loop takes as a sample: the poll, the
    trigger handling on the extracted percent, the sleep. *)
Lemma poll_cycle_body (py_str : json -> string) (args_mode : mode) (cfg : config)
      (st : locals) (w w1 : world) (info : json) (t1 : list event) :
  get_all_info (thermostat st) w = (Ret info, w1, t1) ->
  taken_as_sample info = true ->
  exists last' w2 t2,
    trigger_handling args_mode cfg (last_percent st) (extract_percent info) w1
    = (Ret last', w2, t2)
    /\ poll_cycle py_str args_mode cfg st w
       = if sleepable (JInt (interval cfg))
         then (Ret (mkLocals (thermostat st) last'), w2,
               [ECall Cget_all_info t1] ++ t2 ++ [ESleep (JInt (interval cfg))])
         else (Raise (sleep_error (JInt (interval cfg))), w2,
               [ECall Cget_all_info t1] ++ t2).
Proof.
  intros G S.
  destruct (trigger_handling_run cfg args_mode (last_percent st) (extract_percent info) w1)
    as (last' & w2 & t2 & H & _).
  exists last', w2, t2. split; [exact H |].
  unfold taken_as_sample in S. apply andb_prop in S. destruct S as [S C].
  apply andb_prop in S. destruct S as [N K].
  apply negb_true_iff in N. apply negb_true_iff in K.
  destruct (py_contains info "outputPercentDisplay") as [b |] eqn:P; [| discriminate].
  unfold poll_cycle. unfold bind at 1. unfold call at 1. rewrite G.
  assert (E : (if has_key info "error"
               then (error <- lift (py_getitem info "error") ;;
                     err_code <- lift (py_get error "code" JNull) ;;
                     if py_eq_str err_code "USRSESSEXP"
                        || py_eq_str err_code "SESSION_EXPIRED"
                        || py_eq_str err_code "SESSIONINVALID"
                     then reconnected <- call Creconnect (reconnect 6 5) ;;
                          if negb reconnected
                          then time_sleep (JInt (interval cfg)) ;; ret st
                          else reselect_device py_str cfg st
                     else if py_eq_str err_code "ACCSESSEXC"
                          then reconnected <- call Creconnect (reconnect 6 5) ;;
                               if negb reconnected
                               then time_sleep (JInt (interval cfg)) ;; ret st
                               else time_sleep (JInt (interval cfg)) ;; ret st
                          else reconnected <- call Creconnect (reconnect 6 5) ;;
                               if negb reconnected
                               then time_sleep (JInt (interval cfg)) ;; ret st
                               else time_sleep (JInt (interval cfg)) ;; ret st)
               else (_ <- lift (py_contains info "outputPercentDisplay") ;;
                     last <- trigger_handling args_mode cfg (last_percent st)
                                              (extract_percent info) ;;
                     time_sleep (JInt (interval cfg)) ;;
                     ret (mkLocals (thermostat st) last))) w1
              = if sleepable (JInt (interval cfg))
                then (Ret (mkLocals (thermostat st) last'), w2,
                      t2 ++ [ESleep (JInt (interval cfg))])
                else (Raise (sleep_error (JInt (interval cfg))), w2, t2)).
  { rewrite K, P. unfold bind at 1. unfold lift at 1. unfold bind at 1. rewrite H.
    unfold bind. rewrite time_sleep_run.
    destruct (sleepable (JInt (interval cfg))).
    - reflexivity.
    - now rewrite app_nil_r. }
  destruct info; try discriminate; cbv beta iota zeta; rewrite E;
    destruct (sleepable (JInt (interval cfg))); reflexivity.
Qed.

Lemma fired_in_turn (t1 tail : list event) (tr : option string)
      (body : string -> list event) (s : json) (nm : string) :
  tail = [] \/ tail = [ESleep s] ->
  fired nm ([ECall Cget_all_info t1]
            ++ match tr with
               | Some n => [ECall (Cexecute_trigger n) (body n)]
               | None => []
               end
            ++ tail)
  <-> tr = Some nm.
Proof.
  intros T. unfold fired. split.
  - intros [b I]. cbn [app] in I. destruct I as [I | I]; [discriminate |].
    apply in_app_or in I. destruct I as [I | I].
    + destruct tr as [n |]; [| contradiction].
      destruct I as [I | []]. now injection I as -> _.
    + destruct T as [-> | ->]; [contradiction |].
      destruct I as [I | []]. discriminate.
  - intros ->. eexists. apply in_or_app. right. apply in_or_app. left.
    left. reflexivity.
Qed.

(** The events and the outcome of a turn in trigger mode on a body
    taken as a sample. *)
Lemma trigger_turn (py_str : json -> string) (cfg : config) (st : locals)
      (w w1 : world) (info : json) (t1 : list event) :
  get_all_info (thermostat st) w = (Ret info, w1, t1) ->
  taken_as_sample info = true ->
  sleepable (JInt (interval cfg)) = true ->
  exists last' w2,
    poll_cycle py_str trigger cfg st w
    = (Ret (mkLocals (thermostat st) last'), w2,
       [ECall Cget_all_info t1]
       ++ match transition (last_percent st) (extract_percent info) with
          | Some n =>
              [ECall (Cexecute_trigger n)
                     (events_of (execute_trigger (triggers_config cfg) n w1))]
          | None => []
          end
       ++ [ESleep (JInt (interval cfg))])
    /\ (returns (trigger_logic cfg (last_percent st) (extract_percent info) w1) ->
        last' = extract_percent info)
    /\ (~ returns (trigger_logic cfg (last_percent st) (extract_percent info) w1) ->
        last' = last_percent st).
Proof.
  intros G S L.
  destruct (poll_cycle_body py_str trigger cfg st w w1 info t1 G S)
    as (last' & w2 & t2 & H & P).
  exists last', w2. rewrite P, L.
  destruct (trigger_logic_run cfg (last_percent st) (extract_percent info) w1)
    as (r & w4 & t4 & E & V & C).
  unfold trigger_handling, try_catch in H. rewrite E in H.
  assert (T : t4 = match transition (last_percent st) (extract_percent info) with
                   | Some n =>
                       [ECall (Cexecute_trigger n)
                              (events_of (execute_trigger (triggers_config cfg) n w1))]
                   | None => []
                   end).
  { destruct (transition (last_percent st) (extract_percent info)); now destruct C. }
  rewrite E. destruct r as [x | e].
  - injection H as <- <- <-. rewrite (V x eq_refl), <- T.
    repeat split. intros N. exfalso. apply N. apply returns_Ret.
  - cbn in H. injection H as <- <- <-. rewrite app_nil_r, <- T.
    repeat split. intros [a Ha]. discriminate.
Qed.



(** ** Triggers from one turn to the next *)




Lemma handled_returns (cfg : config) (last percent : json) (w : world) :
  handled cfg last percent w -> returns (trigger_logic cfg last percent w).
Proof.
  intros H.
  destruct (trigger_logic_run cfg last percent w) as (r & w4 & t4 & E & _ & K).
  rewrite E. unfold handled in H. destruct (transition last percent).
  - destruct K as [_ K]. rewrite (K H). apply returns_Ret.
  - destruct K as (_ & _ & K). rewrite (K H). apply returns_Ret.
Qed.

Lemma transition_names (last percent : json) (nm : string) :
  transition last percent = Some nm -> nm = "on_heater_on" \/ nm = "on_heater_off".
Proof.
  unfold transition. destruct last; try discriminate;
    match goal with
    | |- context [py_eq0 ?v && _] =>
        destruct (py_eq0 v && is_pos percent);
        [intros [= <-]; now left |];
        destruct (is_pos v && py_eq0 percent); [intros [= <-]; now right | discriminate]
    end.
Qed.

(** X23. A trigger does not fire at two successive samples: once a trigger
    has fired and its handling went through, the same trigger cannot
    fire at the next sample the loop takes, whatever that sample is. *)
Theorem trigger_not_fired_twice_in_a_row (py_str : json -> string) (cfg : config)
        (st st1 : locals) (w w1 w' w1' : world) (info info' : json)
        (t1 t1' : list event) (nm : string) :
  sleepable (JInt (interval cfg)) = true ->
  get_all_info (thermostat st) w = (Ret info, w1, t1) ->
  taken_as_sample info = true ->
  handled cfg (last_percent st) (extract_percent info) w1 ->
  fired nm (events_of (poll_cycle py_str trigger cfg st w)) ->
  result_of (poll_cycle py_str trigger cfg st w) = Ret st1 ->
  get_all_info (thermostat st1) w' = (Ret info', w1', t1') ->
  taken_as_sample info' = true ->
  ~ fired nm (events_of (poll_cycle py_str trigger cfg st1 w')).
Proof.
  intros L G S H F R G' S'.
  destruct (trigger_turn py_str cfg st w w1 info t1 G S L) as (last' & w2 & P & U & _).
  rewrite P in F, R. cbn [events_of snd result_of fst] in F, R.
  rewrite fired_in_turn in F by (now right).
  rewrite (U (handled_returns _ _ _ _ H)) in R. injection R as <-.
  destruct (trigger_turn py_str cfg _ w' w1' info' t1' G' S' L) as (l2 & w3 & P' & _).
  rewrite P'. cbn [events_of snd thermostat last_percent].
  rewrite fired_in_turn by (now right). intros F'.
  destruct (transition_names _ _ _ F) as [-> | ->].
  - apply transition_on in F. apply transition_on in F'.
    destruct F as [_ F]. destruct F' as [F' _].
    rewrite (is_pos_not_zero _ F) in F'. discriminate.
  - apply transition_off in F. apply transition_off in F'.
    destruct F as [_ F]. destruct F' as [F' _].
    rewrite (is_pos_not_zero _ F') in F. discriminate.
Qed.

Lemma trigger_not_fired_twice_in_a_row_witness :
  fired "on_heater_on"
        (events_of (poll_cycle str_of_scalar trigger pause_on_heat
                               (mkLocals kitchen (JInt 0)) heating_at_45))
  /\ ~ fired "on_heater_on"
        (events_of (poll_cycle str_of_scalar trigger pause_on_heat
                               (mkLocals kitchen (JInt 45))
                               (scripted_world [Some (sample (JInt 60))]))).
Proof.
  assert (F : fired "on_heater_on"
                    (events_of (poll_cycle str_of_scalar trigger pause_on_heat
                                           (mkLocals kitchen (JInt 0)) heating_at_45))).
  { eexists. right. left. reflexivity. }
  split; [exact F |].
  apply (trigger_not_fired_twice_in_a_row
           str_of_scalar pause_on_heat (mkLocals kitchen (JInt 0)) (mkLocals kitchen (JInt 45))
           heating_at_45 (tick heating_at_45)
           (scripted_world [Some (sample (JInt 60))])
           (tick (scripted_world [Some (sample (JInt 60))]))
           (sample (JInt 45)) (sample (JInt 60))
           [ERequest (DEVICE_DATA_URL (JInt 7))] [ERequest (DEVICE_DATA_URL (JInt 7))]
           "on_heater_on" eq_refl eq_refl eq_refl).
  - exists tt. reflexivity.
  - exact F.
  - reflexivity.
  - reflexivity.
  - reflexivity.
Defined.

(** ** The end of [main] *)

Lemma get_devices_session (w : world) :
  session_id (client (world_of (get_devices w))) = session_id (client w).
Proof.
  rewrite get_devices_run.
  destruct (http w (clock w)) as [data |]; [| reflexivity].
  destruct (has_key data "error"); reflexivity.
Qed.

Lemma startup_session (py_str : json -> string) (cfg : config) (w : world) :
  result_of (login w) = Ret true ->
  session_id (client (world_of (startup py_str cfg w)))
  = session_id (client (world_of (login w))).
Proof.
  unfold startup, bind, call, get_client, lift.
  destruct (login w) as [[[[|] | e] wl] tl]; try discriminate. intros _.
  cbn [negb world_of fst snd].
  pose proof (get_devices_session wl) as G.
  destruct (get_devices wl) as [[[[|] | e] wd] td]; cbn [negb world_of fst snd] in *;
    try exact G.
  destruct (find_device py_str (devices (client wd)) (deviceId cfg)) as [[d |] | e];
    cbn; try exact G.
  destruct (truthy d); cbn; [| exact G].
  destruct (Thermostat_init d); exact G.
Qed.

Lemma safe_cleanup_outcome (w : world) :
  exists w',
    safe_cleanup w
    = (Ret tt, w', if truthy (session_id (client w)) then [ERequest LOGOUT_URL] else [])
    /\ truthy (session_id (client w')) = false.
Proof.
  destruct (disconnect_outcome w) as (w' & E & S & _).
  exists w'. unfold safe_cleanup, try_catch. rewrite E. now split.
Qed.

(** X24. Once startup has selected the thermostat (login, device fetch
    and device lookup went through), [main] does not end with a
    session still held: in one-shot mode it returns after its
    [disconnect], and when an exception leaves the loop the
    [disconnect] of the [finally] has run before the exception goes
    on; while the loop runs, [main] has not ended. When startup stops
    at an error, [main] returns there and then without a [disconnect]:
    the client is as startup left it, so after a login that went
    through (the device fetch failed, or the device was not found) the
    session of that login is still held when [main] returns. It is
    [safe_cleanup], registered with [atexit], that posts the logout
    for it. *)
Theorem main_session_at_exit (py_str : json -> string) (args_mode : mode)
        (cfg : config) (cycles : nat) (w w1 : world) (t1 : list event) :
  (forall th,
      startup py_str cfg w = (Ret (inr th), w1, t1) ->
      match result_of (main py_str args_mode cfg cycles w) with
      | Ret (Polling _) => True
      | Ret (StartupError _) => False
      | Ret Finished =>
          args_mode = once
          /\ truthy (session_id (client (world_of (main py_str args_mode cfg cycles w)))) = false
      | Raise _ =>
          args_mode <> once
          /\ truthy (session_id (client (world_of (main py_str args_mode cfg cycles w)))) = false
      end)
  /\ (forall m,
         startup py_str cfg w = (Ret (inl m), w1, t1) ->
         main py_str args_mode cfg cycles w = (Ret (StartupError m), w1, t1)
         /\ (result_of (login w) = Ret true ->
             session_id (client w1) = session_id (client (world_of (login w))))
         /\ exists w2,
             safe_cleanup w1
             = (Ret tt, w2,
                if truthy (session_id (client w1)) then [ERequest LOGOUT_URL] else [])
             /\ truthy (session_id (client w2)) = false).
Proof.
  split.
  - intros th S.
    destruct (main py_str args_mode cfg cycles w) as [[r wf] tf] eqn:M.
    cbn [result_of world_of fst snd]. revert M.
    unfold main. unfold bind at 1. rewrite S. cbv beta iota.
    destruct args_mode.
    + unfold bind, call, ret.
      destruct (get_all_info_run th w1) as (i & w2 & t2 & G). rewrite G.
      destruct (disconnect_outcome w2) as (w3 & D & F & _). rewrite D.
      intros [= <- <- _]. now split.
    + unfold try_catch.
      pose proof (main_loop_polling py_str cfg monitor cycles (mkLocals th JNull) w1) as P.
      destruct (main_loop py_str monitor cfg cycles (mkLocals th JNull) w1)
        as [[[s | e] w2] t2].
      * destruct (P s eq_refl) as [st' ->]. now intros [= <- _ _].
      * unfold bind, call, raise.
        destruct (disconnect_outcome w2) as (w3 & D & F & _). rewrite D.
        intros [= <- <- _]. split; [discriminate | exact F].
    + unfold try_catch.
      pose proof (main_loop_polling py_str cfg trigger cycles (mkLocals th JNull) w1) as P.
      destruct (main_loop py_str trigger cfg cycles (mkLocals th JNull) w1)
        as [[[s | e] w2] t2].
      * destruct (P s eq_refl) as [st' ->]. now intros [= <- _ _].
      * unfold bind, call, raise.
        destruct (disconnect_outcome w2) as (w3 & D & F & _). rewrite D.
        intros [= <- <- _]. split; [discriminate | exact F].
  - intros m S. split; [| split].
    + unfold main. unfold bind at 1. rewrite S. unfold ret. now rewrite app_nil_r.
    + intros L. pose proof (startup_session py_str cfg w L) as H.
      now rewrite S in H.
    + apply safe_cleanup_outcome.
Qed.

Lemma main_session_at_exit_witness :
  (result_of (main str_of_scalar trigger beep_on_heat 1 dying_world) = Raise TypeError
   /\ truthy (session_id (client (world_of (main str_of_scalar trigger beep_on_heat 1
                                                 dying_world)))) = false)
  /\ (result_of (main str_of_scalar trigger wrong_device 1 startup_world)
      = Ret (StartupError "Device ID not found.")
      /\ session_id (client (world_of (main str_of_scalar trigger wrong_device 1
                                            startup_world))) = JStr "3f9a").
Proof.
  pose proof (proj1 (main_session_at_exit
                       str_of_scalar trigger beep_on_heat 1 dying_world
                       (world_of (startup str_of_scalar beep_on_heat dying_world))
                       (events_of (startup str_of_scalar beep_on_heat dying_world)))
                    kitchen eq_refl) as H.
  pose proof (proj2 (main_session_at_exit
                       str_of_scalar trigger wrong_device 1 startup_world
                       (world_of (startup str_of_scalar wrong_device startup_world))
                       (events_of (startup str_of_scalar wrong_device startup_world)))
                    "Device ID not found." eq_refl) as (K & _).
  split.
  - split; [reflexivity |]. exact (proj2 H).
  - rewrite K. split; reflexivity.
Defined.

(** ** A condition that passes *)

Lemma dispatch_without_condition (kvs : list (string * json)) (w : world) :
  (if py_eq_str (dict_get_or kvs "action_type" JNull) "keyboard"
   then _execute_keyboard (JObj (("condition", JNull) :: kvs))
   else if py_eq_str (dict_get_or kvs "action_type" JNull) "command"
        then _execute_command (JObj (("condition", JNull) :: kvs))
        else if py_eq_str (dict_get_or kvs "action_type" JNull) "sleep"
             then _execute_sleep (JObj (("condition", JNull) :: kvs))
             else ret tt) w
  = (if py_eq_str (dict_get_or kvs "action_type" JNull) "keyboard"
     then _execute_keyboard (JObj kvs)
     else if py_eq_str (dict_get_or kvs "action_type" JNull) "command"
          then _execute_command (JObj kvs)
          else if py_eq_str (dict_get_or kvs "action_type" JNull) "sleep"
               then _execute_sleep (JObj kvs)
               else ret tt) w.
Proof. reflexivity. Qed.

(** X25. An enabled action whose condition passes does, after the events
    of the check, exactly what the same action without a condition
    does. *)
Theorem passed_condition_is_transparent (kvs : list (string * json)) (w w' : world)
        (t : list event) :
  truthy (dict_get_or kvs "enabled" (JBool true)) = true ->
  truthy (dict_get_or kvs "condition" JNull) = true ->
  check (dict_get_or kvs "condition" JNull) w = (Ret true, w', t) ->
  execute (JObj kvs) w
  = (result_of (execute (JObj (("condition", JNull) :: kvs)) w'),
     world_of (execute (JObj (("condition", JNull) :: kvs)) w'),
     t ++ events_of (execute (JObj (("condition", JNull) :: kvs)) w')).
Proof.
  intros E C K.
  assert (U : execute (JObj (("condition", JNull) :: kvs)) w'
              = try_catch
                  (if py_eq_str (dict_get_or kvs "action_type" JNull) "keyboard"
                   then _execute_keyboard (JObj kvs)
                   else if py_eq_str (dict_get_or kvs "action_type" JNull) "command"
                        then _execute_command (JObj kvs)
                        else if py_eq_str (dict_get_or kvs "action_type" JNull) "sleep"
                             then _execute_sleep (JObj kvs)
                             else ret tt)
                  (fun _ => ret tt) w').
  { unfold execute, bind, lift, py_get.
    change (dict_get_or (("condition", JNull) :: kvs) "enabled" (JBool true))
      with (dict_get_or kvs "enabled" (JBool true)).
    rewrite E. cbn [negb].
    change (dict_get_or (("condition", JNull) :: kvs) "condition" JNull) with JNull.
    cbn [truthy]. unfold ret at 1. cbv beta iota.
    change (dict_get_or (("condition", JNull) :: kvs) "action_type" JNull)
      with (dict_get_or kvs "action_type" JNull).
    unfold try_catch. rewrite dispatch_without_condition.
    destruct ((if py_eq_str (dict_get_or kvs "action_type" JNull) "keyboard"
               then _execute_keyboard (JObj kvs)
               else if py_eq_str (dict_get_or kvs "action_type" JNull) "command"
                    then _execute_command (JObj kvs)
                    else if py_eq_str (dict_get_or kvs "action_type" JNull) "sleep"
                         then _execute_sleep (JObj kvs)
                         else ret tt) w') as [[[u | e] w2] t2]; reflexivity. }
  rewrite U. unfold execute, bind, lift, py_get. rewrite E, C. cbn [negb].
  unfold bind. rewrite K. cbn [negb]. unfold ret at 1. cbv beta iota.
  destruct (try_catch _ _ w') as [[r w2] t2]. cbn. now rewrite app_nil_r.
Qed.

Lemma passed_condition_is_transparent_witness :
  execute press_a_twice (steady_world None (Some 0) true false)
  = (Ret tt, ticks 3 (steady_world None (Some 0) true false),
     [ERun (Ping_posix (JInt 1) (JFloat (inject_Z 100 / 1000)%Q) (JStr "127.0.0.1"));
      EKey (JStr "a"); ESleep REPEAT_DELAY_IN_SECONDS; EKey (JStr "a")]).
Proof.
  refine (eq_trans (passed_condition_is_transparent
             [("action_type", JStr "keyboard"); ("key", JStr "a"); ("repeat", JInt 2);
              ("condition", ping_localhost)]
             (steady_world None (Some 0) true false)
             (tick (steady_world None (Some 0) true false))
             [ERun (Ping_posix (JInt 1) (JFloat (inject_Z 100 / 1000)%Q) (JStr "127.0.0.1"))]
             eq_refl eq_refl eq_refl) _).
  reflexivity.
Defined.

Lemma parallel_block_ignores_enabled_witness :
  _execute_action_list
    (JArr [JObj [("enabled", JBool false); ("action_type", JStr "parallel");
                 ("actions", JArr [JObj press_f9_thrice])]]) offline
  = _execute_action_list
      (JArr [JObj [("action_type", JStr "parallel");
                   ("actions", JArr [JObj press_f9_thrice])]]) offline.
Proof.
  apply (parallel_block_ignores_enabled
           [("action_type", JStr "parallel"); ("actions", JArr [JObj press_f9_thrice])]
           (JBool false) offline).
  reflexivity.
Defined.
